(** * Episode-window ranking of og-marl's verification scripts

    A shallow embedding of the window generation, scoring and ranking code of
    [verification/find_best_episodes.py], [verification/find_best_episodes_npz.py]
    and of the segment scoring of [verification/create_progression_videos.py].

    Conventions of the embedding:
    - Python integers are [Z]; [//] is [Z.div] (both round towards minus
      infinity for a positive divisor).
    - Rewards are exact rationals [Q]; the rounding of float64 and its
      special values (nan, inf) are outside the model.  [np.mean] of an empty
      vector is nan in NumPy and [0] here, so the statements about means
      speak of timesteps with at least one agent.
    - Python exceptions are the [Err] results of a small error monad.
    - Printing and the JSON files written at the end are not modelled; the
      index expressions evaluated on the way to them are, because they can
      raise. *)

From Stdlib Require Import ZArith QArith Qminmax List Lia Bool Arith.
From Stdlib Require Import Sorting.Sorted Sorting.Permutation.
From Stdlib Require Import Setoid Morphisms.
Import ListNotations.

Open Scope Z_scope.

(** ** Exceptions and the error monad *)

Inductive exn : Set :=
| ValueError   (* range() arg 3 must not be zero; zero-size array to reduction *)
| IndexError.  (* index out of range *)

Inductive result (A : Type) : Type :=
| Ok (a : A)
| Err (e : exn).

Arguments Ok {A} a.
Arguments Err {A} e.

Definition bind {A B : Type} (m : result A) (k : A -> result B) : result B :=
  match m with
  | Ok a => k a
  | Err e => Err e
  end.

Notation "x <- m ;; k" := (bind m (fun x => k))
  (at level 61, m at next level, right associativity).

Fixpoint mapM {A B : Type} (f : A -> result B) (l : list A) : result (list B) :=
  match l with
  | [] => Ok []
  | x :: r => y <- f x ;; ys <- mapM f r ;; Ok (y :: ys)
  end.

(** ** The Python built-ins the scripts use *)

Module Py.

Definition len {A : Type} (l : list A) : Z := Z.of_nat (length l).

(* a // b *)
Definition floordiv (a b : Z) : Z := a / b.

(* The iteration of range(start, stop, step) for step > 0: yield [cur]
   while [cur < stop].  [fuel] bounds the number of iterations. *)
Fixpoint range_up (fuel : nat) (cur stop step : Z) : list Z :=
  match fuel with
  | O => []
  | S f => if cur <? stop then cur :: range_up f (cur + step) stop step else []
  end.

(* The same for step < 0: yield [cur] while [cur > stop]. *)
Fixpoint range_down (fuel : nat) (cur stop step : Z) : list Z :=
  match fuel with
  | O => []
  | S f => if stop <? cur then cur :: range_down f (cur + step) stop step else []
  end.

(* list(range(start, stop, step)); a zero step raises ValueError. *)
Definition range (start stop step : Z) : result (list Z) :=
  if step =? 0 then Err ValueError
  else if 0 <? step then Ok (range_up (Z.to_nat (stop - start)) start stop step)
  else Ok (range_down (Z.to_nat (start - stop)) start stop step).

(* A slice bound [i] of a sequence of length [n]: a negative bound counts
   from the end, and every bound is clamped into [0, n]. *)
Definition clamp (n i : Z) : Z :=
  if i <? 0 then Z.max 0 (i + n) else Z.min i n.

(* l[lo:hi], with [None] for an omitted bound. *)
Definition slice {A : Type} (l : list A) (lo hi : option Z) : list A :=
  let n := len l in
  let a := match lo with None => 0 | Some i => clamp n i end in
  let b := match hi with None => n | Some j => clamp n j end in
  firstn (Z.to_nat (b - a)) (skipn (Z.to_nat a) l).

(* l[i]: a negative index counts from the end; outside [-n, n) raises. *)
Definition getitem {A : Type} (l : list A) (i : Z) : result A :=
  let n := len l in
  let j := if i <? 0 then i + n else i in
  if (0 <=? j) && (j <? n)
  then match nth_error l (Z.to_nat j) with
       | Some x => Ok x
       | None => Err IndexError
       end
  else Err IndexError.

(* sum(...) over numbers *)
Definition sum (l : list Q) : Q := fold_left Qplus l 0%Q.

End Py.

(** ** The NumPy functions the scripts use *)

Module Np.

(* np.mean of a vector, in exact arithmetic (NumPy rounds in float64) *)
Definition mean (v : list Q) : Q :=
  (Py.sum v / inject_Z (Py.len v))%Q.

(* np.sum of a two-dimensional array: every entry is added, in exact
   arithmetic (NumPy rounds in the float type of the array) *)
Definition sum (a : list (list Q)) : Q := Py.sum (concat a).

(* np.min and np.max raise ValueError on an array of size zero *)
Definition min (a : list Q) : result Q :=
  match a with
  | [] => Err ValueError
  | x :: r => Ok (fold_left Qmin r x)
  end.

Definition max (a : list Q) : result Q :=
  match a with
  | [] => Err ValueError
  | x :: r => Ok (fold_left Qmax r x)
  end.

(* np.argsort: the indices that sort the array in ascending order.  NumPy's
   default sort is not stable: the order it gives to equal scores is left
   open and depends on its implementation.  The model returns the stable
   order, one of the admissible results.  The general theorems on rankings
   use only that the result is an arrangement of the indices in ascending
   score order and assert no order among equal scores; a concrete run on
   equal scores shows the order of the model. *)
Fixpoint insert (key : nat -> Q) (i : nat) (l : list nat) : list nat :=
  match l with
  | [] => [i]
  | j :: r => if Qle_bool (key i) (key j) then i :: j :: r
              else j :: insert key i r
  end.

Definition argsort (a : list Q) : list nat :=
  fold_right (insert (fun i => nth i a 0%Q)) [] (seq 0 (length a)).

End Np.

(** ** What the rankers return *)

Record ranking : Type := {
  best_indices : list nat;
  worst_indices : list nat;
  episode_starts : list Z;
  episode_rewards : list Q
}.

(** ** verification/find_best_episodes.py *)

Module Json.

(* [trajectories[t]['rew']] is the per-agent reward vector of timestep t *)
Definition trajectories := list (list Q).

(* for start in range(0, len(trajectories) - episode_length, episode_length // 2) *)
Definition window_starts (trajectories : trajectories) (episode_length : Z)
  : result (list Z) :=
  Py.range 0 (Py.len trajectories - episode_length) (Py.floordiv episode_length 2).

(* range(start, min(start + episode_length, len(trajectories))) *)
Definition window_timesteps (trajectories : trajectories) (episode_length start : Z)
  : result (list Z) :=
  Py.range start (Z.min (start + episode_length) (Py.len trajectories)) 1.

(* sum(np.mean(trajectories[t]['rew']) for t in range(start, min(...))) *)
Definition episode_reward (trajectories : trajectories) (episode_length start : Z)
  : result Q :=
  ts <- window_timesteps trajectories episode_length start ;;
  means <- mapM (fun t => rew <- Py.getitem trajectories t ;; Ok (Np.mean rew)) ts ;;
  Ok (Py.sum means).

Definition find_best_episodes (trajectories : trajectories)
  (episode_length top_n : Z) : result ranking :=
  episode_starts <- window_starts trajectories episode_length ;;
  episode_rewards <- mapM (episode_reward trajectories episode_length) episode_starts ;;
  (* np.mean and np.std of an empty array only warn; np.min and np.max raise *)
  _ <- Np.min episode_rewards ;;
  _ <- Np.max episode_rewards ;;
  let best_indices :=
    rev (Py.slice (Np.argsort episode_rewards) (Some (- top_n)) None) in
  let worst_indices :=
    Py.slice (Np.argsort episode_rewards) None
      (Some (Z.min top_n (Py.len episode_rewards))) in
  b0 <- Py.getitem best_indices 0 ;;
  best_episode_start <- Py.getitem episode_starts (Z.of_nat b0) ;;
  _ <- Py.getitem episode_rewards (Z.of_nat b0) ;;
  w0 <- Py.getitem worst_indices 0 ;;
  worst_episode_start <- Py.getitem episode_starts (Z.of_nat w0) ;;
  _ <- Py.getitem episode_rewards (Z.of_nat w0) ;;
  Ok {| best_indices := best_indices;
        worst_indices := worst_indices;
        episode_starts := episode_starts;
        episode_rewards := episode_rewards |}.

End Json.

(** ** verification/find_best_episodes_npz.py *)

Module Npz.

(* The fields of the archive the ranking reads: the declared number of
   timesteps and the reward array of shape (timesteps, agents).  The
   observation and action arrays share the first axis of [rewards]. *)
Record data : Type := {
  n_timesteps : Z;
  rewards : list (list Q)
}.

(* step_size = episode_length // 2 *)
Definition step_size (episode_length : Z) : Z := Py.floordiv episode_length 2.

(* for start in range(0, n_timesteps - episode_length, step_size) *)
Definition window_starts (d : data) (episode_length : Z) : result (list Z) :=
  Py.range 0 (n_timesteps d - episode_length) (step_size episode_length).

(* np.sum(rewards[start:start + episode_length]) *)
Definition episode_reward (d : data) (episode_length start : Z) : Q :=
  Np.sum (Py.slice (rewards d) (Some start) (Some (start + episode_length))).

(* for t in range(start, end): ... rewards[t].tolist() ... *)
Definition export_episode (d : data) (episode_start episode_end : Z)
  : result (list (list Q)) :=
  ts <- Py.range episode_start episode_end 1 ;;
  mapM (Py.getitem (rewards d)) ts.

Definition find_best_episodes (d : data) (episode_length top_n : Z)
  : result ranking :=
  episode_starts <- window_starts d episode_length ;;
  let episode_rewards := map (episode_reward d episode_length) episode_starts in
  _ <- Np.min episode_rewards ;;
  _ <- Np.max episode_rewards ;;
  let best_indices :=
    rev (Py.slice (Np.argsort episode_rewards) (Some (- top_n)) None) in
  let worst_indices :=
    Py.slice (Np.argsort episode_rewards) None (Some top_n) in
  b0 <- Py.getitem best_indices 0 ;;
  best_episode_start <- Py.getitem episode_starts (Z.of_nat b0) ;;
  _ <- export_episode d best_episode_start (best_episode_start + episode_length) ;;
  _ <- Py.getitem episode_rewards (Z.of_nat b0) ;;
  w0 <- Py.getitem worst_indices 0 ;;
  worst_episode_start <- Py.getitem episode_starts (Z.of_nat w0) ;;
  _ <- export_episode d worst_episode_start (worst_episode_start + episode_length) ;;
  _ <- Py.getitem episode_rewards (Z.of_nat w0) ;;
  Ok {| best_indices := best_indices;
        worst_indices := worst_indices;
        episode_starts := episode_starts;
        episode_rewards := episode_rewards |}.

End Npz.

(** ** verification/create_progression_videos.py: the score of a segment *)

Module Progression.

(* segment_reward = np.sum(rewards[start:end]) with end = start + episode_length *)
Definition segment_reward (rewards : list (list Q)) (episode_length start : Z) : Q :=
  Np.sum (Py.slice rewards (Some start) (Some (start + episode_length))).

End Progression.

(** ** The score the specification describes *)

(* The timesteps of the half-open window [start, start + L). *)
Definition window_range (start L : Z) : list Z :=
  map (fun k => start + Z.of_nat k) (seq 0 (Z.to_nat L)).

(* The sum over the window's timesteps of the mean reward across agents. *)
Definition sum_of_agent_means (rewards : list (list Q)) (start L : Z) : Q :=
  Py.sum (map (fun t => Np.mean (nth (Z.to_nat t) rewards [])) (window_range start L)).

(** ** Vocabulary of the statements *)

(* The number of iterations of range(cur, stop, step) for a positive step:
   the ceiling of (stop - cur) / step. *)
Definition range_count (stop step cur : Z) : nat :=
  Z.to_nat ((stop - cur + step - 1) / step).

(* The loop header shared by both rankers, range(0, T - L, L // 2), as a
   function of the number of timesteps T and the window length L. *)
Definition generated_starts (T L : Z) : result (list Z) :=
  Py.range 0 (T - L) (Py.floordiv L 2).

(* The score of window [i] in an array of window scores. *)
Definition score (a : list Q) (i : nat) : Q := nth i a 0%Q.

(* [i] is listed before [j] in ascending score order, ties broken by the
   earliest index. *)
Definition ascending_earliest (key : nat -> Q) (i j : nat) : Prop :=
  (key i < key j)%Q \/ ((key i == key j)%Q /\ (i < j)%nat).

(* [i] is listed before [j] in descending score order, ties broken by the
   earliest index. *)
Definition descending_earliest (key : nat -> Q) (i j : nat) : Prop :=
  (key j < key i)%Q \/ ((key i == key j)%Q /\ (i < j)%nat).

(* Equality of reward arrays as arrays of numbers. *)
Definition same_rewards (r1 r2 : list (list Q)) : Prop :=
  Forall2 (Forall2 Qeq) r1 r2.

(* Two computations end alike: both return, or both raise the same
   exception. *)
Definition alike {A B : Type} (x : result A) (y : result B) : Prop :=
  match x, y with
  | Ok _, Ok _ => True
  | Err e1, Err e2 => e1 = e2
  | _, _ => False
  end.

(* Equality of two results of a ranker: the same exception, or the same
   index lists and starts with equal scores. *)
Definition same_ranking (x y : result ranking) : Prop :=
  match x, y with
  | Ok r1, Ok r2 =>
      best_indices r1 = best_indices r2 /\
      worst_indices r1 = worst_indices r2 /\
      episode_starts r1 = episode_starts r2 /\
      Forall2 Qeq (episode_rewards r1) (episode_rewards r2)
  | Err e1, Err e2 => e1 = e2
  | _, _ => False
  end.

(* The archive declares as many timesteps as its reward array has rows, as
   the exporters write it. *)
Definition well_formed (d : Npz.data) : Prop :=
  Npz.n_timesteps d = Py.len (Npz.rewards d).

(* Every timestep holds the rewards of [A] agents. *)
Definition agents (A : Z) (rewards : list (list Q)) : Prop :=
  Forall (fun v => Py.len v = A) rewards.

(* The order the specification asks of the two index lists. *)
Definition ranked_earliest (r : ranking) : Prop :=
  let key := score (episode_rewards r) in
  StronglySorted (descending_earliest key) (best_indices r) /\
  StronglySorted (ascending_earliest key) (worst_indices r).

(* A ranking over the windows [starts], scored by [score_of], that selects
   one best and one worst window: its scores are the scores of the windows,
   no window scores more than the best one and none less than the worst
   one. *)
Definition extreme_windows (score_of : Z -> Q) (starts : list Z) (r : ranking)
  : Prop :=
  episode_starts r = starts /\
  episode_rewards r = map score_of starts /\
  exists b w : nat,
    best_indices r = [b] /\ worst_indices r = [w] /\
    (b < length starts)%nat /\ (w < length starts)%nat /\
    forall s : Z, In s starts ->
      (score_of s <= score_of (nth b starts 0%Z))%Q /\
      (score_of (nth w starts 0%Z) <= score_of s)%Q.

(* The rows of the reward array in the window [start, start + L). *)
Definition window_rows (rewards : list (list Q)) (start L : Z) : list (list Q) :=
  map (fun t => nth (Z.to_nat t) rewards []) (window_range start L).

(* The score the NPZ ranker gives a window: the sum of all its rewards. *)
Definition sum_of_rewards (rewards : list (list Q)) (start L : Z) : Q :=
  Np.sum (window_rows rewards start L).

(* The two index lists of a ranking for [top_n] over windows scored by
   [score_of]: the scores are the scores of the windows; the best list is
   order[-top_n:][::-1] and the worst list order[:top_n] for one arrangement
   [order] of all the windows in ascending score order, so that the best list
   is in descending and the worst list in ascending score order.  Nothing is
   said of the order among windows of equal score. *)
Definition ranked_by_score (score_of : Z -> Q) (top_n : Z) (r : ranking) : Prop :=
  let key := score (episode_rewards r) in
  let n := length (episode_rewards r) in
  episode_rewards r = map score_of (episode_starts r) /\
  StronglySorted (fun i j => (key j <= key i)%Q) (best_indices r) /\
  StronglySorted (fun i j => (key i <= key j)%Q) (worst_indices r) /\
  Forall (fun i => (i < n)%nat) (best_indices r) /\
  Forall (fun i => (i < n)%nat) (worst_indices r) /\
  exists order : list nat,
    Permutation order (seq 0 n) /\
    StronglySorted (fun i j => (key i <= key j)%Q) order /\
    best_indices r = rev (Py.slice order (Some (- top_n)) None) /\
    worst_indices r = Py.slice order None (Some top_n).

(** ** The episode files the rankers write *)

(* One entry of an exported 'trajectories' list: the timestep rebased to the
   start of the episode and the reward vector.  The 'obs' and 'act' entries
   are read at the same index of arrays with the same first axis. *)
Record step : Type := {
  step_t : Z;
  step_rew : list Q
}.

Module JsonFiles.

(* best_episode_data / worst_episode_data of find_best_episodes.py *)
Record episode_data : Type := {
  trajectories : list (list Q);
  note_start : Z;
  note_end : Z;
  original_start_step : Z;
  cumulative_reward : Q
}.

(* The dictionary built from the first index of [indices]:
     start = episode_starts[indices[0]]
     end = min(start + episode_length, len(trajectories))
     'trajectories': trajectories[start:end]
     'cumulative_reward': float(episode_rewards[indices[0]]) *)
Definition episode_file (indices : list nat) (trajectories : Json.trajectories)
  (episode_length : Z) (r : ranking) : result episode_data :=
  i0 <- Py.getitem indices 0 ;;
  episode_start <- Py.getitem (episode_starts r) (Z.of_nat i0) ;;
  let episode_end := Z.min (episode_start + episode_length) (Py.len trajectories) in
  reward <- Py.getitem (episode_rewards r) (Z.of_nat i0) ;;
  Ok {| trajectories := Py.slice trajectories (Some episode_start) (Some episode_end);
        note_start := episode_start;
        note_end := episode_end;
        original_start_step := episode_start;
        cumulative_reward := reward |}.

Definition best_episode_data (trajectories : Json.trajectories)
  (episode_length : Z) (r : ranking) : result episode_data :=
  episode_file (best_indices r) trajectories episode_length r.

Definition worst_episode_data (trajectories : Json.trajectories)
  (episode_length : Z) (r : ranking) : result episode_data :=
  episode_file (worst_indices r) trajectories episode_length r.

End JsonFiles.

Module NpzFiles.

(* best_episode_data / worst_episode_data of find_best_episodes_npz.py and
   segment_data of create_progression_videos.py *)
Record episode_data : Type := {
  n_timesteps : Z;
  note_start : Z;
  note_end : Z;
  original_start_step : Z;
  cumulative_reward : Q;
  trajectories : list step
}.

(* trajectories = []
   for t in range(start, end):
       step = {'t': int(t - start), ..., 'rew': rewards[t].tolist()}
       trajectories.append(step) *)
Definition export_steps (d : Npz.data) (episode_start episode_end : Z)
  : result (list step) :=
  ts <- Py.range episode_start episode_end 1 ;;
  mapM (fun t => row <- Py.getitem (Npz.rewards d) t ;;
                 Ok {| step_t := t - episode_start; step_rew := row |}) ts.

Definition episode_file (indices : list nat) (d : Npz.data)
  (episode_length : Z) (r : ranking) : result episode_data :=
  i0 <- Py.getitem indices 0 ;;
  episode_start <- Py.getitem (episode_starts r) (Z.of_nat i0) ;;
  let episode_end := episode_start + episode_length in
  trajectories <- export_steps d episode_start episode_end ;;
  reward <- Py.getitem (episode_rewards r) (Z.of_nat i0) ;;
  Ok {| n_timesteps := episode_length;
        note_start := episode_start;
        note_end := episode_end;
        original_start_step := episode_start;
        cumulative_reward := reward;
        trajectories := trajectories |}.

Definition best_episode_data (d : Npz.data) (episode_length : Z) (r : ranking)
  : result episode_data :=
  episode_file (best_indices r) d episode_length r.

Definition worst_episode_data (d : Npz.data) (episode_length : Z) (r : ranking)
  : result episode_data :=
  episode_file (worst_indices r) d episode_length r.

End NpzFiles.

(** ** verification/create_progression_videos.py: sampling and export *)

Module Videos.

(* A run ends with its segments, with the ZeroDivisionError of the integer
   division, or with an exception of the export loop. *)
Inductive outcome (A : Type) : Type :=
| Done (a : A)
| ZeroDivisionError
| Raised (e : exn).

Arguments Done {A} a.
Arguments ZeroDivisionError {A}.
Arguments Raised {A} e.

Definition lift {A : Type} (m : result A) : outcome A :=
  match m with
  | Ok a => Done a
  | Err e => Raised e
  end.

(* step_size = (n_timesteps - episode_length) // (num_videos - 1) *)
Definition step_size (n_timesteps num_videos episode_length : Z) : outcome Z :=
  if num_videos - 1 =? 0 then ZeroDivisionError
  else Done (Py.floordiv (n_timesteps - episode_length) (num_videos - 1)).

(* sample_starts = [i * step_size for i in range(num_videos - 1)]
   sample_starts.append(n_timesteps - episode_length) *)
Definition sample_starts (n_timesteps num_videos episode_length : Z)
  : outcome (list Z) :=
  match step_size n_timesteps num_videos episode_length with
  | Done step =>
      match Py.range 0 (num_videos - 1) 1 with
      | Ok indices =>
          Done (map (fun i => i * step) indices ++ [n_timesteps - episode_length])
      | Err e => Raised e
      end
  | ZeroDivisionError => ZeroDivisionError
  | Raised e => Raised e
  end.

Record segment_data : Type := {
  n_timesteps : Z;
  original_start_step : Z;
  segment_end : Z;
  cumulative_reward : Q;
  avg_reward : Q;
  trajectories : list step
}.

(* One turn of the loop over sample_starts.  avg_reward divides by
   episode_length; for episode_length = 0 NumPy yields nan or inf where the
   rational model yields 0. *)
Definition segment (d : Npz.data) (episode_length start : Z) : result segment_data :=
  let end_ := start + episode_length in
  let segment_reward := Progression.segment_reward (Npz.rewards d) episode_length start in
  let avg_reward := (segment_reward / inject_Z episode_length)%Q in
  trajectories <- NpzFiles.export_steps d start end_ ;;
  Ok {| n_timesteps := episode_length;
        original_start_step := start;
        segment_end := end_;
        cumulative_reward := segment_reward;
        avg_reward := avg_reward;
        trajectories := trajectories |}.

(* The segments written before the videos are recorded. *)
Definition create_progression_videos (d : Npz.data) (num_videos episode_length : Z)
  : outcome (list segment_data) :=
  match sample_starts (Npz.n_timesteps d) num_videos episode_length with
  | Done starts => lift (mapM (segment d episode_length) starts)
  | ZeroDivisionError => ZeroDivisionError
  | Raised e => Raised e
  end.

End Videos.

(** ** verification/record_mamujoco.py: the steps a recording replays *)

Module Recorder.

(* for i in range(min(num_steps, len(trajectories))):
       step_data = trajectories[i]
   The steps read by the loop, in order; stepping and rendering the
   simulator with them is outside the model. *)
Definition replayed (trajectories : list step) (num_steps : Z) : result (list step) :=
  indices <- Py.range 0 (Z.min num_steps (Py.len trajectories)) 1 ;;
  mapM (Py.getitem trajectories) indices.

End Recorder.

(** ** Vocabulary of the additional statements *)

(* The number of windows the rankers generate, for 2 <= L. *)
Definition window_count (T L : Z) : Z :=
  Z.of_nat (range_count (T - L) (L / 2) 0).

(* The values of top_n for which a ranker over [n] windows finds a first
   best and a first worst window. *)
Definition selects (n top_n : Z) : Prop :=
  1 <= top_n \/ - n < top_n < 0.

(* Timestep [t] lies in the window of length [L] at [s]. *)
Definition in_window (s L t : Z) : Prop := s <= t < s + L.

(* The steps a script exports for the window [start, start + L). *)
Definition window_steps (rewards : list (list Q)) (start L : Z) : list step :=
  map (fun t => {| step_t := t - start; step_rew := nth (Z.to_nat t) rewards [] |})
    (window_range start L).

(* Both index lists of a ranking hold min(top_n, number of windows) distinct
   windows. *)
Definition top_k_sized (top_n : Z) (r : ranking) : Prop :=
  let n := Py.len (episode_starts r) in
  Py.len (best_indices r) = Z.min top_n n /\
  Py.len (worst_indices r) = Z.min top_n n /\
  NoDup (best_indices r) /\ NoDup (worst_indices r).

(* No window outside the best list scores more than a window inside it, and
   no window outside the worst list scores less than a window inside it. *)
Definition dominates (r : ranking) : Prop :=
  let key := score (episode_rewards r) in
  let n := length (episode_rewards r) in
  (forall i j, In i (best_indices r) -> (j < n)%nat -> ~ In j (best_indices r) ->
               (key j <= key i)%Q) /\
  (forall i j, In i (worst_indices r) -> (j < n)%nat -> ~ In j (worst_indices r) ->
               (key i <= key j)%Q).

(* An episode file of the JSON ranker holds one generated window: its L
   timesteps as they are in the trajectory, the bounds of the window, and as
   cumulative reward the score of the window, which is also the score of the
   exported timesteps taken as one window from 0. *)
Definition json_file_of_window (trajectories : Json.trajectories) (L : Z)
  (starts : list Z) (f : JsonFiles.episode_data) : Prop :=
  let s := JsonFiles.original_start_step f in
  In s starts /\
  JsonFiles.note_start f = s /\ JsonFiles.note_end f = s + L /\
  JsonFiles.trajectories f = window_rows trajectories s L /\
  Py.len (JsonFiles.trajectories f) = L /\
  JsonFiles.cumulative_reward f = sum_of_agent_means trajectories s L /\
  JsonFiles.cumulative_reward f = sum_of_agent_means (JsonFiles.trajectories f) 0 L.

(* An episode file of the NPZ ranker holds one generated window: L steps
   numbered 0 .. L - 1 with the window's reward rows, a declared n_timesteps
   equal to the number of steps, and as cumulative reward the sum of all
   exported rewards. *)
Definition npz_file_of_window (d : Npz.data) (L : Z) (starts : list Z)
  (f : NpzFiles.episode_data) : Prop :=
  let s := NpzFiles.original_start_step f in
  In s starts /\
  NpzFiles.note_start f = s /\ NpzFiles.note_end f = s + L /\
  NpzFiles.n_timesteps f = L /\
  Py.len (NpzFiles.trajectories f) = NpzFiles.n_timesteps f /\
  NpzFiles.trajectories f = window_steps (Npz.rewards d) s L /\
  map step_t (NpzFiles.trajectories f) = window_range 0 L /\
  NpzFiles.cumulative_reward f = Np.sum (map step_rew (NpzFiles.trajectories f)).

(* A segment of the progression script holds one in-bounds window: L steps
   numbered from 0 with the window's reward rows, a declared n_timesteps equal
   to the number of steps, and as cumulative reward the sum of all exported
   rewards. *)
Definition segment_of_window (d : Npz.data) (L : Z) (g : Videos.segment_data) : Prop :=
  let s := Videos.original_start_step g in
  0 <= s /\ Videos.segment_end g = s + L /\
  Videos.segment_end g <= Py.len (Npz.rewards d) /\
  Videos.n_timesteps g = L /\
  Py.len (Videos.trajectories g) = Videos.n_timesteps g /\
  Videos.trajectories g = window_steps (Npz.rewards d) s L /\
  map step_t (Videos.trajectories g) = window_range 0 L /\
  Videos.cumulative_reward g = Np.sum (map step_rew (Videos.trajectories g)).

(* The sample starts the progression script computes for num_videos >= 2:
   the multiples i * step for i < num_videos - 1, then T - L. *)
Definition evenly_spaced (T num_videos L : Z) : list Z :=
  map (fun i => i * ((T - L) / (num_videos - 1))) (window_range 0 (num_videos - 1))
  ++ [T - L].

(* Segments of length [L] at [a] and then [b] do not overlap. *)
Definition apart (L a b : Z) : Prop := a + L <= b.

(** ** Concrete inputs *)

(* Five timesteps of two agents with rewards 1 and 3. *)
Definition two_agents : Npz.data :=
  {| Npz.n_timesteps := 5; Npz.rewards := repeat [1%Q; 3%Q] 5 |}.

(* [n] timesteps of one agent with reward 1. *)
Definition one_agent (n : nat) : Npz.data :=
  {| Npz.n_timesteps := Z.of_nat n; Npz.rewards := repeat [1%Q] n |}.

(* Seven timesteps of one agent with distinct window scores. *)
Definition uneven : Npz.data :=
  {| Npz.n_timesteps := 7;
     Npz.rewards := [[1%Q]; [5%Q]; [2%Q]; [7%Q]; [3%Q]; [1%Q]; [0%Q]] |}.

(* The same rewards as [uneven], each written as a fraction over 2. *)
Definition uneven_halves : Npz.data :=
  {| Npz.n_timesteps := 7;
     Npz.rewards := [[2 # 2]; [10 # 2]; [4 # 2]; [14 # 2]; [6 # 2]; [2 # 2]; [0 # 2]]%Q |}.

(* Seven timesteps of one agent whose five windows of length 2 score
   2, 1, 1, 0 and 0. *)
Definition tied : Npz.data :=
  {| Npz.n_timesteps := 7;
     Npz.rewards := [[1%Q]; [1%Q]; [0%Q]; [1%Q]; [(-1)%Q]; [1%Q]; [0%Q]] |}.

(** ** Concrete runs *)

Example json_run_uneven :
  Json.find_best_episodes (Npz.rewards uneven) 2 2 =
  Ok {| best_indices := [3; 2]%nat; worst_indices := [4; 0]%nat;
        episode_starts := [0; 1; 2; 3; 4];
        episode_rewards :=
          map (fun s => sum_of_agent_means (Npz.rewards uneven) s 2)
            [0; 1; 2; 3; 4] |}.
Proof. vm_compute. reflexivity. Qed.

(** ** Facts about the built-ins *)

Section RangeFacts.

Variables stop step : Z.
Hypothesis step_pos : 0 < step.

Lemma range_up_bounds (fuel : nat) (cur x : Z) :
  In x (Py.range_up fuel cur stop step) -> cur <= x < stop.
Proof.
  revert cur; induction fuel as [|f IH]; intros cur; simpl; [tauto|].
  destruct (Z.ltb_spec cur stop) as [Hlt|Hge]; simpl; [|tauto].
  intros [<-|Hin]; [lia|].
  apply IH in Hin. lia.
Qed.

Lemma range_count_done (cur : Z) : stop <= cur -> range_count stop step cur = O.
Proof.
  intros H. unfold range_count.
  assert ((stop - cur + step - 1) / step <= 0); [|lia].
  destruct (Z.eq_dec (stop - cur + step - 1) (-1 + 0)) as [E|E].
  - rewrite E. simpl. apply Z.lt_succ_r.
    apply Z.div_lt_upper_bound; lia.
  - apply Z.lt_succ_r. apply Z.div_lt_upper_bound; lia.
Qed.

Lemma range_count_step (cur : Z) :
  cur < stop -> range_count stop step cur = S (range_count stop step (cur + step)).
Proof.
  intros H. unfold range_count.
  replace (stop - cur + step - 1) with ((stop - (cur + step) + step - 1) + 1 * step) by lia.
  rewrite Z.div_add by lia.
  assert (0 <= (stop - (cur + step) + step - 1) / step).
  { apply Z.div_pos; lia. }
  lia.
Qed.

(* With enough fuel the loop yields cur, cur + step, cur + 2 step, ... *)
Lemma range_up_spec (fuel : nat) (cur : Z) :
  (Z.to_nat (stop - cur) <= fuel)%nat ->
  Py.range_up fuel cur stop step =
  map (fun k => cur + Z.of_nat k * step) (seq 0 (range_count stop step cur)).
Proof.
  revert cur; induction fuel as [|f IH]; intros cur Hfuel; simpl.
  - rewrite range_count_done by lia. reflexivity.
  - destruct (Z.ltb_spec cur stop) as [Hlt|Hge].
    + rewrite range_count_step by assumption. simpl.
      f_equal; [lia|].
      rewrite IH by lia.
      rewrite <- seq_shift, map_map.
      apply map_ext. intros k. lia.
    + rewrite range_count_done by lia. reflexivity.
Qed.

End RangeFacts.

Lemma range_down_empty (fuel : nat) (cur stop step : Z) :
  cur <= stop -> Py.range_down fuel cur stop step = [].
Proof.
  intros H. destruct fuel as [|f]; simpl; [reflexivity|].
  destruct (Z.ltb_spec stop cur); [lia|reflexivity].
Qed.

(* range(start, stop): the half-open interval, whatever its bounds *)
Lemma range_unit_step (start L : Z) :
  Py.range start (start + L) 1 = Ok (window_range start L).
Proof.
  unfold Py.range, window_range. simpl.
  rewrite range_up_spec by lia.
  unfold range_count.
  replace (start + L - start + 1 - 1) with L by lia.
  rewrite Z.div_1_r.
  f_equal. apply map_ext. intros k. lia.
Qed.

Lemma window_range_length (start L : Z) :
  length (window_range start L) = Z.to_nat L.
Proof. unfold window_range. now rewrite length_map, length_seq. Qed.

Lemma window_range_In (start L t : Z) :
  In t (window_range start L) <-> start <= t < start + L.
Proof.
  unfold window_range. rewrite in_map_iff. split.
  - intros [k [<- Hk]]. apply in_seq in Hk. lia.
  - intros H. exists (Z.to_nat (t - start)). split; [lia|].
    apply in_seq. lia.
Qed.

(** ** The windows the loops generate *)

Lemma generated_starts_stride_zero (T L : Z) :
  0 <= L <= 1 -> generated_starts T L = Err ValueError.
Proof.
  intros H. unfold generated_starts, Py.range, Py.floordiv.
  assert (L = 0 \/ L = 1) as [-> | ->] by lia; reflexivity.
Qed.

Lemma generated_starts_negative (T L : Z) :
  0 <= T -> L < 0 -> generated_starts T L = Ok [].
Proof.
  intros HT HL. unfold generated_starts, Py.range, Py.floordiv.
  assert (L / 2 < 0) by (apply Z.div_lt_upper_bound; lia).
  destruct (Z.eqb_spec (L / 2) 0); [lia|].
  destruct (Z.ltb_spec 0 (L / 2)); [lia|].
  now rewrite range_down_empty by lia.
Qed.

Lemma generated_starts_spec (T L : Z) :
  2 <= L ->
  generated_starts T L =
  Ok (map (fun k => Z.of_nat k * (L / 2))
        (seq 0 (Z.to_nat ((T - L + L / 2 - 1) / (L / 2))))).
Proof.
  intros HL. unfold generated_starts, Py.range, Py.floordiv.
  assert (0 < L / 2) by (apply Z.div_str_pos; lia).
  destruct (Z.eqb_spec (L / 2) 0); [lia|].
  destruct (Z.ltb_spec 0 (L / 2)); [|lia].
  rewrite range_up_spec by lia.
  unfold range_count. rewrite Z.sub_0_r. reflexivity.
Qed.

Lemma generated_starts_bounds (T L : Z) (starts : list Z) (s : Z) :
  0 <= T ->
  generated_starts T L = Ok starts -> In s starts ->
  2 <= L /\ 0 <= s /\ s + L <= T - 1.
Proof.
  intros HT Hgen Hin.
  destruct (Z_lt_le_dec L 0) as [Hneg|Hnn].
  - rewrite generated_starts_negative in Hgen by lia.
    injection Hgen as <-. destruct Hin.
  - destruct (Z_le_gt_dec L 1) as [Hsmall|Hbig].
    + rewrite generated_starts_stride_zero in Hgen by lia. discriminate.
    + unfold generated_starts, Py.range, Py.floordiv in Hgen.
      assert (0 < L / 2) by (apply Z.div_str_pos; lia).
      destruct (Z.eqb_spec (L / 2) 0); [lia|].
      destruct (Z.ltb_spec 0 (L / 2)); [|lia].
      injection Hgen as <-.
      apply range_up_bounds in Hin; lia.
Qed.

(** ** Facts about argsort *)

Section ArgsortFacts.

Variable key : nat -> Q.

Lemma insert_perm (i : nat) (l : list nat) :
  Permutation (Np.insert key i l) (i :: l).
Proof.
  induction l as [|j r IH]; simpl; [reflexivity|].
  destruct (Qle_bool (key i) (key j)); [reflexivity|].
  rewrite IH. apply perm_swap.
Qed.

Lemma sort_perm (l : list nat) :
  Permutation (fold_right (Np.insert key) [] l) l.
Proof.
  induction l as [|i r IH]; simpl; [reflexivity|].
  rewrite insert_perm. now constructor.
Qed.

Lemma ascending_earliest_le (i j : nat) :
  ascending_earliest key i j -> (key i <= key j)%Q.
Proof.
  intros [H|[H _]]; [now apply Qlt_le_weak|].
  rewrite H. apply Qle_refl.
Qed.

Lemma insert_sorted (i : nat) (l : list nat) :
  Forall (fun j => (i < j)%nat) l ->
  StronglySorted (ascending_earliest key) l ->
  StronglySorted (ascending_earliest key) (Np.insert key i l).
Proof.
  induction l as [|j r IH]; intros Hlt Hs; simpl.
  - repeat constructor.
  - apply StronglySorted_inv in Hs as [Hr Hj].
    inversion Hlt as [|? ? Hij Hir]; subst.
    destruct (Qle_bool (key i) (key j)) eqn:E.
    + apply Qle_bool_iff in E.
      constructor; [constructor; assumption|].
      assert (Hle : forall x, (key j <= key x)%Q -> (i < x)%nat ->
                              ascending_earliest key i x).
      { intros x Hx Hix.
        destruct (Qle_lt_or_eq _ _ (Qle_trans _ _ _ E Hx)) as [H|H];
          [left; exact H | right; split; assumption]. }
      constructor; [apply Hle; [apply Qle_refl | exact Hij]|].
      rewrite Forall_forall in *. intros x Hx.
      apply Hle; [apply ascending_earliest_le; auto | auto].
    + assert (Hji : (key j < key i)%Q).
      { apply Qnot_le_lt. intros H. apply Qle_bool_iff in H. congruence. }
      constructor; [apply IH; assumption|].
      rewrite (insert_perm i r).
      constructor; [left; exact Hji | exact Hj].
Qed.

Lemma sort_sorted (s n : nat) :
  StronglySorted (ascending_earliest key)
    (fold_right (Np.insert key) [] (seq s n)).
Proof.
  revert s; induction n as [|n IH]; intros s; simpl; [constructor|].
  apply insert_sorted; [|apply IH].
  rewrite (sort_perm (seq (S s) n)).
  apply Forall_forall. intros j Hj. apply in_seq in Hj. lia.
Qed.

(* The comparisons only look at the values of the keys. *)
Lemma insert_ext (key' : nat -> Q) (i : nat) (l : list nat) :
  (forall j, (key j == key' j)%Q) ->
  Np.insert key i l = Np.insert key' i l.
Proof.
  intros Hk. induction l as [|j r IH]; simpl; [reflexivity|].
  rewrite IH.
  assert (Qle_bool (key i) (key j) = Qle_bool (key' i) (key' j)) as ->;
    [|reflexivity].
  apply eq_true_iff_eq. rewrite !Qle_bool_iff, (Hk i), (Hk j). reflexivity.
Qed.

End ArgsortFacts.

Lemma argsort_perm (a : list Q) :
  Permutation (Np.argsort a) (seq 0 (length a)).
Proof. apply sort_perm. Qed.

Lemma argsort_length (a : list Q) : length (Np.argsort a) = length a.
Proof. now rewrite (Permutation_length (argsort_perm a)), length_seq. Qed.

Lemma argsort_In (a : list Q) (i : nat) :
  In i (Np.argsort a) <-> (i < length a)%nat.
Proof.
  split; intros H.
  - apply (Permutation_in _ (argsort_perm a)), in_seq in H. lia.
  - apply (Permutation_in _ (Permutation_sym (argsort_perm a))), in_seq. lia.
Qed.

Lemma argsort_sorted (a : list Q) :
  StronglySorted (ascending_earliest (score a)) (Np.argsort a).
Proof. apply (sort_sorted (score a)). Qed.

Lemma Forall2_Qeq_nth (a b : list Q) (i : nat) :
  Forall2 Qeq a b -> (nth i a 0 == nth i b 0)%Q.
Proof.
  intros H; revert i; induction H as [|x y a b Hxy _ IH]; intros [|i]; simpl;
    try reflexivity; auto.
Qed.

Lemma argsort_same (a b : list Q) :
  Forall2 Qeq a b -> Np.argsort a = Np.argsort b.
Proof.
  intros H. unfold Np.argsort.
  rewrite (Forall2_length H).
  generalize (seq 0 (length b)) as l.
  induction l as [|i r IH]; simpl; [reflexivity|].
  rewrite IH. apply insert_ext. intros j. now apply Forall2_Qeq_nth.
Qed.

(** ** Order is kept by slicing and turned around by reversal *)

Section SortedFacts.

Context {A : Type} (R : A -> A -> Prop).

Lemma StronglySorted_app_inv (l1 l2 : list A) :
  StronglySorted R (l1 ++ l2) ->
  StronglySorted R l1 /\ StronglySorted R l2 /\
  (forall x y, In x l1 -> In y l2 -> R x y).
Proof.
  induction l1 as [|a l1 IH]; simpl; intros H.
  - repeat split; [constructor | assumption | contradiction].
  - apply StronglySorted_inv in H as [Hs Ha].
    destruct (IH Hs) as (H1 & H2 & H12).
    apply Forall_app in Ha as [Ha1 Ha2].
    repeat split; [constructor; assumption | assumption |].
    intros x y [<-|Hx] Hy; [|auto].
    rewrite Forall_forall in Ha2. auto.
Qed.

Lemma StronglySorted_app (l1 l2 : list A) :
  StronglySorted R l1 -> StronglySorted R l2 ->
  (forall x y, In x l1 -> In y l2 -> R x y) ->
  StronglySorted R (l1 ++ l2).
Proof.
  induction l1 as [|a l1 IH]; simpl; intros H1 H2 H12; [assumption|].
  apply StronglySorted_inv in H1 as [Hs Ha].
  constructor; [apply IH; auto|].
  apply Forall_app. split; [assumption|].
  apply Forall_forall. auto.
Qed.

Lemma StronglySorted_firstn_skipn (n a : nat) (l : list A) :
  StronglySorted R l -> StronglySorted R (firstn n (skipn a l)).
Proof.
  intros H.
  rewrite <- (firstn_skipn a l) in H.
  apply StronglySorted_app_inv in H as (_ & H & _).
  rewrite <- (firstn_skipn n (skipn a l)) in H.
  now apply StronglySorted_app_inv in H as (H & _ & _).
Qed.

Lemma StronglySorted_slice (l : list A) (lo hi : option Z) :
  StronglySorted R l -> StronglySorted R (Py.slice l lo hi).
Proof. intros H. now apply StronglySorted_firstn_skipn. Qed.

End SortedFacts.

Lemma StronglySorted_rev {A : Type} (R : A -> A -> Prop) (l : list A) :
  StronglySorted R l -> StronglySorted (fun x y => R y x) (rev l).
Proof.
  induction 1 as [|a l Hs IH Ha]; simpl; [constructor|].
  apply StronglySorted_app; [assumption | repeat constructor |].
  intros x y Hx [<-|[]].
  apply in_rev in Hx. rewrite Forall_forall in Ha. auto.
Qed.

(** ** Facts about indexing, slicing and sums *)

Lemma getitem_in_bounds {A : Type} (l : list A) (i : Z) (d : A) :
  0 <= i < Py.len l -> Py.getitem l i = Ok (nth (Z.to_nat i) l d).
Proof.
  unfold Py.getitem, Py.len. intros H.
  destruct (Z.ltb_spec i 0); [lia|].
  destruct (Z.leb_spec 0 i); [|lia].
  destruct (Z.ltb_spec i (Z.of_nat (length l))); [|lia]. simpl.
  destruct (nth_error l (Z.to_nat i)) as [x|] eqn:E.
  - now rewrite (nth_error_nth _ _ d E).
  - apply nth_error_None in E. lia.
Qed.

Lemma getitem_first {A : Type} (x : A) (l : list A) :
  Py.getitem (x :: l) 0 = Ok x.
Proof.
  unfold Py.getitem, Py.len. simpl length.
  destruct (Z.ltb_spec 0 (Z.of_nat (S (length l)))); [reflexivity|lia].
Qed.

Lemma mapM_ok {A B : Type} (f : A -> result B) (g : A -> B) (l : list A) :
  (forall x, In x l -> f x = Ok (g x)) -> mapM f l = Ok (map g l).
Proof.
  induction l as [|x r IH]; simpl; intros H; [reflexivity|].
  rewrite H by auto. simpl. rewrite IH by auto. reflexivity.
Qed.

Lemma firstn_skipn_nth {A : Type} (l : list A) (a n : nat) (d : A) :
  (a + n <= length l)%nat ->
  firstn n (skipn a l) = map (fun k => nth (a + k) l d) (seq 0 n).
Proof.
  revert a l; induction n as [|n IH]; intros a l H; [reflexivity|].
  destruct (skipn a l) as [|x r] eqn:E.
  - apply (f_equal (@length A)) in E. rewrite length_skipn in E. simpl in E. lia.
  - simpl. f_equal.
    + rewrite Nat.add_0_r.
      rewrite <- (firstn_skipn a l) at 1.
      rewrite app_nth2; rewrite length_firstn; [|lia].
      replace (a - Nat.min a (length l))%nat with O by lia.
      now rewrite E.
    + rewrite <- seq_shift, map_map.
      assert (r = skipn (S a) l) as ->.
      { replace (S a) with (1 + a)%nat by lia.
        rewrite <- skipn_skipn, E. reflexivity. }
      rewrite IH by lia.
      apply map_ext. intros k. f_equal. lia.
Qed.

(* rewards[start:start + L] of an in-bounds window is its L timesteps *)
Lemma slice_window {A : Type} (l : list A) (start L : Z) (d : A) :
  0 <= start -> 0 <= L -> start + L <= Py.len l ->
  Py.slice l (Some start) (Some (start + L)) =
  map (fun t => nth (Z.to_nat t) l d) (window_range start L).
Proof.
  unfold Py.slice, Py.clamp, Py.len, window_range. intros Hs HL Hb.
  destruct (Z.ltb_spec start 0); [lia|].
  destruct (Z.ltb_spec (start + L) 0); [lia|].
  rewrite !Z.min_l by lia.
  replace (start + L - start) with L by lia.
  rewrite (firstn_skipn_nth _ _ _ d) by lia.
  rewrite map_map. apply map_ext. intros k. f_equal. lia.
Qed.

Lemma fold_sum_acc (l : list Q) (acc : Q) :
  (fold_left Qplus l acc == acc + Py.sum l)%Q.
Proof.
  unfold Py.sum. revert acc; induction l as [|x l IH]; intros acc; simpl.
  - ring.
  - rewrite (IH (acc + x)%Q), (IH (0 + x)%Q). ring.
Qed.

Lemma sum_cons (x : Q) (l : list Q) : (Py.sum (x :: l) == x + Py.sum l)%Q.
Proof. unfold Py.sum at 1. simpl. rewrite fold_sum_acc. ring. Qed.

Lemma sum_app (l1 l2 : list Q) : (Py.sum (l1 ++ l2) == Py.sum l1 + Py.sum l2)%Q.
Proof.
  induction l1 as [|x l1 IH]; simpl.
  - unfold Py.sum at 2. simpl. ring.
  - rewrite !sum_cons, IH. ring.
Qed.

Lemma sum_same (l1 l2 : list Q) : Forall2 Qeq l1 l2 -> (Py.sum l1 == Py.sum l2)%Q.
Proof.
  induction 1 as [|x y l1 l2 Hxy _ IH]; [reflexivity|].
  now rewrite !sum_cons, Hxy, IH.
Qed.

Lemma mean_same (v1 v2 : list Q) : Forall2 Qeq v1 v2 -> (Np.mean v1 == Np.mean v2)%Q.
Proof.
  intros H. unfold Np.mean, Py.len.
  now rewrite (sum_same _ _ H), (Forall2_length H).
Qed.

(* With a agents at a timestep, the sum of its rewards is a times the mean. *)
Lemma sum_mean (v : list Q) :
  v <> [] -> (Py.sum v == inject_Z (Py.len v) * Np.mean v)%Q.
Proof.
  intros Hv. unfold Np.mean. field.
  unfold Py.len. destruct v as [|x v]; [congruence|].
  intros H. apply (Qeq_bool_neq (inject_Z (Z.of_nat (length (x :: v)))) 0); [|exact H].
  reflexivity.
Qed.

(** ** The scores of the generated windows *)

Lemma json_window_starts_eq (trajectories : Json.trajectories) (L : Z) :
  Json.window_starts trajectories L = generated_starts (Py.len trajectories) L.
Proof. reflexivity. Qed.

Lemma npz_window_starts_eq (d : Npz.data) (L : Z) :
  Npz.window_starts d L = generated_starts (Npz.n_timesteps d) L.
Proof. reflexivity. Qed.

Lemma len_nonneg {A : Type} (l : list A) : 0 <= Py.len l.
Proof. unfold Py.len. lia. Qed.

Lemma json_window_timesteps (trajectories : Json.trajectories) (L s : Z) :
  s + L <= Py.len trajectories ->
  Json.window_timesteps trajectories L s = Ok (window_range s L).
Proof.
  intros H. unfold Json.window_timesteps.
  rewrite Z.min_l by assumption. apply range_unit_step.
Qed.

Lemma json_episode_reward_spec (trajectories : Json.trajectories) (L s : Z) :
  0 <= s -> s + L <= Py.len trajectories ->
  Json.episode_reward trajectories L s = Ok (sum_of_agent_means trajectories s L).
Proof.
  intros Hs Hb. unfold Json.episode_reward.
  rewrite json_window_timesteps by assumption. simpl.
  rewrite (mapM_ok _ (fun t => Np.mean (nth (Z.to_nat t) trajectories []))).
  - reflexivity.
  - intros t Ht. apply window_range_In in Ht.
    rewrite (getitem_in_bounds _ _ []) by lia. reflexivity.
Qed.

Lemma json_episode_rewards_spec (trajectories : Json.trajectories) (L : Z)
  (starts : list Z) :
  Json.window_starts trajectories L = Ok starts ->
  mapM (Json.episode_reward trajectories L) starts =
  Ok (map (fun s => sum_of_agent_means trajectories s L) starts).
Proof.
  intros Hgen. apply mapM_ok. intros s Hs.
  rewrite json_window_starts_eq in Hgen.
  destruct (generated_starts_bounds _ _ _ _ (len_nonneg _) Hgen Hs) as (_ & H0 & Hb).
  apply json_episode_reward_spec; lia.
Qed.

Lemma sum_rows (A : Z) (rows : list (list Q)) :
  1 <= A -> agents A rows ->
  (Np.sum rows == inject_Z A * Py.sum (map Np.mean rows))%Q.
Proof.
  intros HA. unfold Np.sum.
  induction 1 as [|v rows Hv _ IH]; simpl.
  - unfold Py.sum. simpl. ring.
  - rewrite sum_app, sum_cons, IH.
    rewrite (sum_mean v), Hv; [ring|].
    intros ->. unfold Py.len in Hv. simpl in Hv. lia.
Qed.

Lemma agents_window (A : Z) (rewards : list (list Q)) (s L : Z) :
  0 <= s -> s + L <= Py.len rewards -> agents A rewards ->
  agents A (map (fun t => nth (Z.to_nat t) rewards []) (window_range s L)).
Proof.
  intros Hs Hb HA. unfold agents in *.
  apply Forall_forall. intros v Hv.
  apply in_map_iff in Hv as [t [<- Ht]].
  apply window_range_In in Ht.
  rewrite Forall_forall in HA. apply HA, nth_In.
  unfold Py.len in Hb. lia.
Qed.

(* np.sum over the window's rows is the number of agents times the sum of
   the per-timestep means. *)
Lemma sliced_sum_spec (A : Z) (rewards : list (list Q)) (L s : Z) :
  1 <= A -> agents A rewards ->
  0 <= s -> 0 <= L -> s + L <= Py.len rewards ->
  (Np.sum (Py.slice rewards (Some s) (Some (s + L)%Z)) ==
   inject_Z A * sum_of_agent_means rewards s L)%Q.
Proof.
  intros HA Hag Hs HL Hb.
  rewrite (slice_window _ _ _ []) by assumption.
  rewrite (sum_rows A) by (try apply agents_window; assumption).
  unfold sum_of_agent_means. now rewrite map_map.
Qed.

Lemma well_formed_starts (d : Npz.data) (L : Z) :
  well_formed d ->
  Npz.window_starts d L = Json.window_starts (Npz.rewards d) L.
Proof.
  intros Hwf. rewrite npz_window_starts_eq, json_window_starts_eq.
  now rewrite Hwf.
Qed.

(** * The claims *)

(** C1 (the code departs from it).  The claim asks for every start
    0, S, 2S, ... with start + L <= T, that is floor((T - L) / S) + 1 windows.
    On ten timesteps with window length 4 (stride 4 // 2 = 2) both loops yield
    the starts 0, 2 and 4 only: the start 6, for which 6 + 4 <= 10, is left
    out, and three windows are generated where the claim counts four. *)
Theorem window_generation_omits_final_start :
  Json.window_starts (Npz.rewards (one_agent 10)) 4 = Ok [0; 2; 4] /\
  Npz.window_starts (one_agent 10) 4 = Ok [0; 2; 4] /\
  6 + 4 <= Npz.n_timesteps (one_agent 10) /\
  Py.len [0; 2; 4] <> (10 - 4) / Npz.step_size 4 + 1.
Proof. repeat split; vm_compute; congruence. Qed.

(** C10.  Every start the loops generate satisfies start + L <= T - 1: the
    clamp min(start + L, T) of the scoring loop is never the smaller bound, the
    window is made of exactly L timesteps that are all in bounds (for the
    generator expression and for the slice alike), and the last timestep
    T - 1 belongs to no window. *)
Theorem generated_windows_exclude_last_timestep :
  forall (d : Npz.data) (L : Z) (starts : list Z) (s : Z),
    well_formed d ->
    Npz.window_starts d L = Ok starts -> In s starts ->
    let T := Py.len (Npz.rewards d) in
    Json.window_starts (Npz.rewards d) L = Ok starts /\
    0 <= s /\ s + L <= T - 1 /\
    Z.min (s + L) T = s + L /\
    Json.window_timesteps (Npz.rewards d) L s = Ok (window_range s L) /\
    Py.slice (Npz.rewards d) (Some s) (Some (s + L)) =
      map (fun t => nth (Z.to_nat t) (Npz.rewards d) []) (window_range s L) /\
    Py.len (window_range s L) = L /\
    (forall t, In t (window_range s L) -> 0 <= t < T - 1).
Proof.
  intros d L starts s Hwf Hgen Hin T.
  rewrite (well_formed_starts d L Hwf) in Hgen.
  pose proof Hgen as Hgen'. rewrite json_window_starts_eq in Hgen'.
  destruct (generated_starts_bounds _ _ _ _ (len_nonneg _) Hgen' Hin)
    as (HL & H0 & Hb).
  fold T in Hb.
  repeat split; try assumption; try lia.
  - apply json_window_timesteps. fold T. lia.
  - apply slice_window; fold T; lia.
  - unfold Py.len. rewrite window_range_length. lia.
  - apply window_range_In in H. lia.
  - apply window_range_In in H. lia.
Qed.

Lemma generated_windows_exclude_last_timestep_witness :
  let d := one_agent 7 in
  let T := Py.len (Npz.rewards d) in
  Json.window_starts (Npz.rewards d) 2 = Ok [0; 1; 2; 3; 4] /\
  0 <= 4 /\ 4 + 2 <= T - 1 /\
  Z.min (4 + 2) T = 4 + 2 /\
  Json.window_timesteps (Npz.rewards d) 2 4 = Ok (window_range 4 2) /\
  Py.slice (Npz.rewards d) (Some 4) (Some (4 + 2)) =
    map (fun t => nth (Z.to_nat t) (Npz.rewards d) []) (window_range 4 2) /\
  Py.len (window_range 4 2) = 2 /\
  (forall t, In t (window_range 4 2) -> 0 <= t < T - 1).
Proof.
  apply (generated_windows_exclude_last_timestep (one_agent 7) 2 [0; 1; 2; 3; 4] 4).
  - reflexivity.
  - reflexivity.
  - simpl. tauto.
Defined.

(** C2 (as stated, refuted).  On five timesteps of two agents with rewards 1
    and 3 and window length 2, the window at start 0 is generated; the JSON
    ranker scores it 2 + 2 = 4, the sum of the per-timestep means, while the
    NPZ ranker and the progression script score it 1 + 3 + 1 + 3 = 8. *)
Lemma npz_score_is_not_sum_of_means :
  Npz.window_starts two_agents 2 = Ok [0; 1; 2] /\
  Json.episode_reward (Npz.rewards two_agents) 2 0 =
    Ok (sum_of_agent_means (Npz.rewards two_agents) 0 2) /\
  ~ (Npz.episode_reward two_agents 2 0 ==
     sum_of_agent_means (Npz.rewards two_agents) 0 2)%Q /\
  ~ (Progression.segment_reward (Npz.rewards two_agents) 2 0 ==
     sum_of_agent_means (Npz.rewards two_agents) 0 2)%Q.
Proof.
  repeat split; try reflexivity;
    intros H; apply Qeq_bool_iff in H; vm_compute in H; discriminate.
Qed.

(** C2 (amended).  For every generated window start, the JSON ranker's score
    is the sum over the timesteps of [start, start + L) of the mean reward
    across agents; the NPZ ranker and the progression script add up every
    agent's reward instead, which for A >= 1 agents per timestep is A times
    that sum of means. *)
Theorem window_score_by_variant :
  forall (d : Npz.data) (A L : Z) (starts : list Z) (s : Z),
    well_formed d -> 1 <= A -> agents A (Npz.rewards d) ->
    Npz.window_starts d L = Ok starts -> In s starts ->
    Json.episode_reward (Npz.rewards d) L s =
      Ok (sum_of_agent_means (Npz.rewards d) s L) /\
    (Npz.episode_reward d L s ==
     inject_Z A * sum_of_agent_means (Npz.rewards d) s L)%Q /\
    (Progression.segment_reward (Npz.rewards d) L s ==
     inject_Z A * sum_of_agent_means (Npz.rewards d) s L)%Q.
Proof.
  intros d A L starts s Hwf HA Hag Hgen Hin.
  rewrite (well_formed_starts d L Hwf), json_window_starts_eq in Hgen.
  destruct (generated_starts_bounds _ _ _ _ (len_nonneg _) Hgen Hin)
    as (HL & H0 & Hb).
  split; [apply json_episode_reward_spec; lia|].
  split; apply sliced_sum_spec; assumption || lia.
Qed.

Lemma window_score_by_variant_witness :
  Json.episode_reward (Npz.rewards two_agents) 2 1 =
    Ok (sum_of_agent_means (Npz.rewards two_agents) 1 2) /\
  (Npz.episode_reward two_agents 2 1 ==
   inject_Z 2 * sum_of_agent_means (Npz.rewards two_agents) 1 2)%Q /\
  (Progression.segment_reward (Npz.rewards two_agents) 2 1 ==
   inject_Z 2 * sum_of_agent_means (Npz.rewards two_agents) 1 2)%Q.
Proof.
  apply (window_score_by_variant two_agents 2 2 [0; 1; 2] 1).
  - reflexivity.
  - lia.
  - unfold agents, two_agents. simpl. repeat constructor.
  - reflexivity.
  - simpl. tauto.
Defined.

(** C5 (the code departs from it).  With the window as long as the sequence,
    four timesteps and window length 4, the loops range over
    range(0, 0, 2): no window is generated, where the claim asks for the one
    window [0, 4), and both rankers then stop with the ValueError of np.min
    on an empty array. *)
Theorem whole_sequence_window_is_not_generated :
  Json.window_starts (Npz.rewards (one_agent 4)) 4 = Ok [] /\
  Npz.window_starts (one_agent 4) 4 = Ok [] /\
  Json.find_best_episodes (Npz.rewards (one_agent 4)) 4 1 = Err ValueError /\
  Npz.find_best_episodes (one_agent 4) 4 1 = Err ValueError.
Proof. repeat split. Qed.

(** C7 (as stated, refuted).  For window length 1 the stride is 1 // 2 = 0,
    not max(1, 0) = 1, and range() raises ValueError on the zero step. *)
Lemma stride_of_unit_window_is_zero :
  Npz.step_size 1 = 0 /\
  Npz.step_size 1 <> Z.max 1 (1 / 2) /\
  Json.window_starts (Npz.rewards (one_agent 5)) 1 = Err ValueError /\
  Npz.window_starts (one_agent 5) 1 = Err ValueError.
Proof. repeat split; vm_compute; congruence. Qed.

(** C7 (amended).  The stride is always floor(L / 2), with no lower bound of
    1: for every window length L >= 2 it is at least 1 and window generation
    succeeds, yielding the starts k * floor(L / 2) below T - L; for L = 1 it
    is 0 and window generation raises ValueError. *)
Theorem stride_is_half_window :
  forall (d : Npz.data) (L : Z),
    1 <= L ->
    Npz.step_size L = L / 2 /\
    Json.window_starts (Npz.rewards d) L =
      Py.range 0 (Py.len (Npz.rewards d) - L) (Npz.step_size L) /\
    ((L = 1 /\ Npz.step_size L = 0 /\
      Npz.window_starts d L = Err ValueError /\
      Json.window_starts (Npz.rewards d) L = Err ValueError) \/
     (2 <= L /\ 1 <= Npz.step_size L /\
      Npz.window_starts d L =
        Ok (map (fun k => Z.of_nat k * Npz.step_size L)
              (seq 0 (range_count (Npz.n_timesteps d - L) (Npz.step_size L) 0))) /\
      Json.window_starts (Npz.rewards d) L =
        Ok (map (fun k => Z.of_nat k * Npz.step_size L)
              (seq 0 (range_count (Py.len (Npz.rewards d) - L) (Npz.step_size L) 0))))).
Proof.
  intros d L HL.
  split; [reflexivity|]. split; [reflexivity|].
  destruct (Z.eq_dec L 1) as [->|Hne].
  - left. repeat split.
  - right. split; [lia|]. split.
    + unfold Npz.step_size, Py.floordiv.
      assert (0 < L / 2) by (apply Z.div_str_pos; lia). lia.
    + rewrite npz_window_starts_eq, json_window_starts_eq.
      rewrite !generated_starts_spec by lia.
      unfold range_count, Npz.step_size, Py.floordiv.
      rewrite !Z.sub_0_r. split; reflexivity.
Qed.

Lemma stride_is_half_window_witness :
  let d := one_agent 10 in
  Npz.step_size 4 = 4 / 2 /\
  Json.window_starts (Npz.rewards d) 4 =
    Py.range 0 (Py.len (Npz.rewards d) - 4) (Npz.step_size 4) /\
  ((4 = 1 /\ Npz.step_size 4 = 0 /\
    Npz.window_starts d 4 = Err ValueError /\
    Json.window_starts (Npz.rewards d) 4 = Err ValueError) \/
   (2 <= 4 /\ 1 <= Npz.step_size 4 /\
    Npz.window_starts d 4 =
      Ok (map (fun k => Z.of_nat k * Npz.step_size 4)
            (seq 0 (range_count (Npz.n_timesteps d - 4) (Npz.step_size 4) 0))) /\
    Json.window_starts (Npz.rewards d) 4 =
      Ok (map (fun k => Z.of_nat k * Npz.step_size 4)
            (seq 0 (range_count (Py.len (Npz.rewards d) - 4) (Npz.step_size 4) 0))))).
Proof. apply (stride_is_half_window (one_agent 10) 4). lia. Defined.

(* The start T - L, whose window would end at the last timestep, is never
   among the generated starts. *)
Lemma final_start_never_generated (T L : Z) (starts : list Z) :
  0 <= T -> generated_starts T L = Ok starts -> ~ In (T - L) starts.
Proof.
  intros HT Hgen Hin.
  destruct (generated_starts_bounds T L starts (T - L) HT Hgen Hin) as (_ & _ & H).
  lia.
Qed.

(** ** Runs without a window *)

Lemma generated_starts_none (T L : Z) :
  2 <= L -> T <= L -> generated_starts T L = Ok [].
Proof.
  intros HL HT. rewrite generated_starts_spec by assumption.
  assert (0 < L / 2) by (apply Z.div_str_pos; lia).
  pose proof (range_count_done (T - L) (L / 2) ltac:(assumption) 0 ltac:(lia)) as E.
  unfold range_count in E. rewrite Z.sub_0_r in E. now rewrite E.
Qed.

(* range(0, T - L, L // 2) raises or is empty whenever L <= 1 or T <= L *)
Lemma generated_starts_degenerate (T L : Z) :
  0 <= T -> L <= 1 \/ T <= L ->
  generated_starts T L = Err ValueError \/ generated_starts T L = Ok [].
Proof.
  intros HT H.
  destruct (Z_lt_le_dec L 0); [right; now apply generated_starts_negative|].
  destruct (Z_le_gt_dec L 1); [left; apply generated_starts_stride_zero; lia|].
  right. apply generated_starts_none; lia.
Qed.

Lemma json_no_window (trajectories : Json.trajectories) (L top_n : Z) :
  Json.window_starts trajectories L = Err ValueError \/
  Json.window_starts trajectories L = Ok [] ->
  Json.find_best_episodes trajectories L top_n = Err ValueError.
Proof.
  unfold Json.find_best_episodes. intros [-> | ->]; reflexivity.
Qed.

Lemma npz_no_window (d : Npz.data) (L top_n : Z) :
  Npz.window_starts d L = Err ValueError \/ Npz.window_starts d L = Ok [] ->
  Npz.find_best_episodes d L top_n = Err ValueError.
Proof.
  unfold Npz.find_best_episodes. intros [-> | ->]; reflexivity.
Qed.

(** C3 (as stated, refuted).  On three timesteps with window length 5 no
    window is generated, and the run does not complete: both rankers raise
    ValueError, so no ranking with an empty window list is returned. *)
Lemma longer_window_raises :
  Py.len (Npz.rewards (one_agent 3)) < 5 /\
  Json.find_best_episodes (Npz.rewards (one_agent 3)) 5 1 = Err ValueError /\
  Npz.find_best_episodes (one_agent 3) 5 1 = Err ValueError /\
  ~ (exists r, Json.find_best_episodes (Npz.rewards (one_agent 3)) 5 1 = Ok r /\
               episode_starts r = []).
Proof.
  repeat split. intros [r [H _]]. vm_compute in H. discriminate.
Qed.

(** C3 (amended).  When the window length L exceeds the trajectory length
    T >= 1, the loops generate an empty window list; the rankers then raise
    ValueError (np.min of the empty score array) instead of completing. *)
Theorem longer_window_generates_nothing :
  forall (d : Npz.data) (L top_n : Z),
    well_formed d -> 1 <= Npz.n_timesteps d -> Npz.n_timesteps d < L ->
    Json.window_starts (Npz.rewards d) L = Ok [] /\
    Npz.window_starts d L = Ok [] /\
    Json.find_best_episodes (Npz.rewards d) L top_n = Err ValueError /\
    Npz.find_best_episodes d L top_n = Err ValueError.
Proof.
  intros d L top_n Hwf HT HL.
  assert (Hn : Npz.window_starts d L = Ok []).
  { rewrite npz_window_starts_eq. apply generated_starts_none; lia. }
  assert (Hj : Json.window_starts (Npz.rewards d) L = Ok []).
  { now rewrite <- (well_formed_starts d L Hwf). }
  repeat split; try assumption.
  - apply json_no_window. now right.
  - apply npz_no_window. now right.
Qed.

Lemma longer_window_generates_nothing_witness :
  Json.window_starts (Npz.rewards (one_agent 3)) 5 = Ok [] /\
  Npz.window_starts (one_agent 3) 5 = Ok [] /\
  Json.find_best_episodes (Npz.rewards (one_agent 3)) 5 2 = Err ValueError /\
  Npz.find_best_episodes (one_agent 3) 5 2 = Err ValueError.
Proof.
  apply (longer_window_generates_nothing (one_agent 3) 5 2).
  - reflexivity.
  - simpl. lia.
  - simpl. lia.
Defined.




(** ** Selecting one best and one worst window *)

Lemma bind_ok {A B : Type} (a : A) (k : A -> result B) : bind (Ok a) k = k a.
Proof. reflexivity. Qed.

Lemma slice_last_app {A : Type} (l : list A) (x : A) :
  Py.slice (l ++ [x]) (Some (-1)) None = [x].
Proof.
  unfold Py.slice, Py.clamp, Py.len.
  rewrite length_app. simpl length.
  destruct (Z.ltb_spec (-1) 0); [|lia].
  replace (Z.to_nat (Z.max 0 (-1 + Z.of_nat (length l + 1))))
    with (length l + 0)%nat by lia.
  rewrite skipn_app, skipn_all2 by lia.
  replace (length l + 0 - length l)%nat with O by lia.
  simpl skipn. simpl app.
  replace (Z.to_nat _) with 1%nat by lia. reflexivity.
Qed.

Lemma slice_last_one {A : Type} (l : list A) (d : A) :
  l <> [] -> Py.slice l (Some (-1)) None = [last l d].
Proof.
  intros Hl. pose proof (app_removelast_last d Hl) as E.
  set (x := last l d) in *. rewrite E. apply slice_last_app.
Qed.

Lemma slice_first_one {A : Type} (l : list A) (d : A) :
  l <> [] -> Py.slice l None (Some 1) = [hd d l].
Proof.
  intros Hl. destruct l as [|x l]; [congruence|].
  unfold Py.slice, Py.clamp, Py.len. simpl length.
  destruct (Z.ltb_spec 1 0); [lia|].
  replace (Z.to_nat _) with 1%nat by lia. reflexivity.
Qed.

Lemma argsort_nonempty (a : list Q) : a <> [] -> Np.argsort a <> [].
Proof.
  intros Ha E. apply (f_equal (@length nat)) in E.
  rewrite argsort_length in E. destruct a; [congruence|discriminate].
Qed.

Lemma argsort_last_max (a : list Q) (i : nat) :
  a <> [] -> (i < length a)%nat ->
  (score a i <= score a (last (Np.argsort a) O))%Q.
Proof.
  intros Ha Hi.
  pose proof (argsort_sorted a) as Hs.
  apply argsort_In in Hi.
  rewrite (app_removelast_last O (argsort_nonempty a Ha)) in Hs, Hi.
  apply StronglySorted_app_inv in Hs as (_ & _ & H).
  apply in_app_or in Hi as [Hi|[<-|[]]]; [|apply Qle_refl].
  apply ascending_earliest_le, H; [assumption | now left].
Qed.

Lemma argsort_head_min (a : list Q) (i : nat) :
  a <> [] -> (i < length a)%nat ->
  (score a (hd O (Np.argsort a)) <= score a i)%Q.
Proof.
  intros Ha Hi.
  pose proof (argsort_sorted a) as Hs.
  apply argsort_In in Hi.
  destruct (Np.argsort a) as [|w r]; [destruct Hi|]. simpl.
  apply StronglySorted_inv in Hs as [_ Hw].
  destruct Hi as [<-|Hi]; [apply Qle_refl|].
  rewrite Forall_forall in Hw. apply ascending_earliest_le. auto.
Qed.

Lemma last_In {A : Type} (l : list A) (d : A) : l <> [] -> In (last l d) l.
Proof.
  intros Hl. rewrite (app_removelast_last d Hl) at 2.
  apply in_or_app. right. now left.
Qed.

Lemma hd_In {A : Type} (l : list A) (d : A) : l <> [] -> In (hd d l) l.
Proof. destruct l; [congruence|]. intros _. now left. Qed.

Lemma min_max_ok (a : list Q) :
  a <> [] -> exists lo hi, Np.min a = Ok lo /\ Np.max a = Ok hi.
Proof. destruct a; [congruence|]. intros _. simpl. eauto. Qed.

Lemma export_episode_ok (d : Npz.data) (s L : Z) :
  0 <= s -> s + L <= Py.len (Npz.rewards d) ->
  exists rows, Npz.export_episode d s (s + L) = Ok rows.
Proof.
  intros Hs Hb. unfold Npz.export_episode.
  rewrite range_unit_step, bind_ok.
  eexists. apply (mapM_ok _ (fun t => nth (Z.to_nat t) (Npz.rewards d) [])).
  intros t Ht. apply window_range_In in Ht.
  apply getitem_in_bounds. lia.
Qed.

Lemma nth_map_in {A B : Type} (f : A -> B) (l : list A) (i : nat) (d : A) (e : B) :
  (i < length l)%nat -> nth i (map f l) e = f (nth i l d).
Proof.
  intros Hi. rewrite (nth_indep _ e (f d)) by (now rewrite length_map).
  apply map_nth.
Qed.

Lemma scores_of_starts {f : Z -> Q} (starts : list Z) (s : Z) :
  In s starts ->
  exists i, (i < length starts)%nat /\ score (map f starts) i = f s.
Proof.
  intros Hin. destruct (In_nth _ _ 0 Hin) as (i & Hi & E).
  exists i. split; [assumption|].
  unfold score. now rewrite (nth_map_in _ _ _ 0), E.
Qed.

Lemma json_top1 (trajectories : Json.trajectories) (L : Z) (starts : list Z) :
  Json.window_starts trajectories L = Ok starts -> starts <> [] ->
  exists r, Json.find_best_episodes trajectories L 1 = Ok r /\
            extreme_windows (fun s => sum_of_agent_means trajectories s L) starts r.
Proof.
  intros Hgen Hne. unfold Json.find_best_episodes.
  rewrite Hgen, bind_ok, (json_episode_rewards_spec _ _ _ Hgen), bind_ok.
  set (a := map _ starts).
  assert (Hlen : length a = length starts) by apply length_map.
  assert (Ha : a <> []).
  { intros E. rewrite E in Hlen. destruct starts; [congruence|discriminate]. }
  destruct (min_max_ok a Ha) as (lo & hi & -> & ->). rewrite !bind_ok.
  change (- (1)) with (-1).
  rewrite (slice_last_one _ O (argsort_nonempty a Ha)).
  replace (Z.min 1 (Py.len a)) with 1
    by (unfold Py.len; destruct a; [congruence | simpl length; lia]).
  rewrite (slice_first_one _ O (argsort_nonempty a Ha)).
  set (b := last (Np.argsort a) O). set (w := hd O (Np.argsort a)).
  assert (Hb : (b < length a)%nat)
    by (apply argsort_In, last_In, argsort_nonempty, Ha).
  assert (Hw : (w < length a)%nat)
    by (apply argsort_In, hd_In, argsort_nonempty, Ha).
  simpl rev. simpl app. rewrite !getitem_first, !bind_ok.
  rewrite (getitem_in_bounds starts (Z.of_nat b) 0) by (unfold Py.len; lia).
  rewrite (getitem_in_bounds a (Z.of_nat b) 0%Q) by (unfold Py.len; lia).
  rewrite (getitem_in_bounds starts (Z.of_nat w) 0) by (unfold Py.len; lia).
  rewrite (getitem_in_bounds a (Z.of_nat w) 0%Q) by (unfold Py.len; lia).
  rewrite !bind_ok.
  eexists. split; [reflexivity|].
  unfold extreme_windows. simpl.
  split; [reflexivity|]. split; [reflexivity|].
  exists b, w.
  split; [reflexivity|]. split; [reflexivity|].
  split; [lia|]. split; [lia|].
  intros s Hs.
  destruct (@scores_of_starts (fun s => sum_of_agent_means trajectories s L) starts s Hs) as (i & Hi & <-).
  rewrite <- (nth_map_in (fun s => sum_of_agent_means trajectories s L) starts b 0 0%Q) by lia.
  rewrite <- (nth_map_in (fun s => sum_of_agent_means trajectories s L) starts w 0 0%Q) by lia.
  fold a. split; [apply argsort_last_max | apply argsort_head_min];
    assumption || lia.
Qed.

Lemma npz_top1 (d : Npz.data) (L : Z) (starts : list Z) :
  well_formed d ->
  Npz.window_starts d L = Ok starts -> starts <> [] ->
  exists r, Npz.find_best_episodes d L 1 = Ok r /\
            extreme_windows (Npz.episode_reward d L) starts r.
Proof.
  intros Hwf Hgen Hne. unfold Npz.find_best_episodes.
  rewrite Hgen, bind_ok.
  set (a := map _ starts).
  assert (Hlen : length a = length starts) by apply length_map.
  assert (Ha : a <> []).
  { intros E. rewrite E in Hlen. destruct starts; [congruence|discriminate]. }
  destruct (min_max_ok a Ha) as (lo & hi & -> & ->). rewrite !bind_ok.
  change (- (1)) with (-1).
  rewrite (slice_last_one _ O (argsort_nonempty a Ha)).
  rewrite (slice_first_one _ O (argsort_nonempty a Ha)).
  set (b := last (Np.argsort a) O). set (w := hd O (Np.argsort a)).
  assert (Hb : (b < length a)%nat)
    by (apply argsort_In, last_In, argsort_nonempty, Ha).
  assert (Hw : (w < length a)%nat)
    by (apply argsort_In, hd_In, argsort_nonempty, Ha).
  assert (Hexp : forall i, (i < length starts)%nat ->
            exists rows, Npz.export_episode d (nth i starts 0)
                           (nth i starts 0 + L) = Ok rows).
  { intros i Hi.
    rewrite npz_window_starts_eq, Hwf in Hgen.
    destruct (generated_starts_bounds _ _ _ (nth i starts 0) (len_nonneg _) Hgen)
      as (_ & H0 & Hbd); [now apply nth_In|].
    apply export_episode_ok; lia. }
  simpl rev. simpl app. rewrite !getitem_first, !bind_ok.
  rewrite (getitem_in_bounds starts (Z.of_nat b) 0) by (unfold Py.len; lia).
  rewrite (getitem_in_bounds a (Z.of_nat b) 0%Q) by (unfold Py.len; lia).
  rewrite (getitem_in_bounds starts (Z.of_nat w) 0) by (unfold Py.len; lia).
  rewrite (getitem_in_bounds a (Z.of_nat w) 0%Q) by (unfold Py.len; lia).
  rewrite !bind_ok, !Nat2Z.id.
  destruct (Hexp b) as [rb ->]; [lia|].
  destruct (Hexp w) as [rw ->]; [lia|].
  rewrite !bind_ok.
  eexists. split; [reflexivity|].
  unfold extreme_windows. simpl.
  split; [reflexivity|]. split; [reflexivity|].
  exists b, w.
  split; [reflexivity|]. split; [reflexivity|].
  split; [lia|]. split; [lia|].
  intros s Hs.
  destruct (@scores_of_starts (Npz.episode_reward d L) starts s Hs) as (i & Hi & <-).
  rewrite <- (nth_map_in (Npz.episode_reward d L) starts b 0 0%Q) by lia.
  rewrite <- (nth_map_in (Npz.episode_reward d L) starts w 0 0%Q) by lia.
  fold a. split; [apply argsort_last_max | apply argsort_head_min];
    assumption || lia.
Qed.

(* np.sum(rewards[start:start + L]) of an in-bounds window adds up the
   rewards of its L timesteps. *)
Lemma npz_episode_reward_spec (d : Npz.data) (L s : Z) :
  0 <= s -> 0 <= L -> s + L <= Py.len (Npz.rewards d) ->
  Npz.episode_reward d L s = sum_of_rewards (Npz.rewards d) s L.
Proof.
  intros Hs HL Hb. unfold Npz.episode_reward, sum_of_rewards, window_rows.
  now rewrite (slice_window _ _ _ []) by assumption.
Qed.

Lemma extreme_windows_ext (f g : Z -> Q) (starts : list Z) (r : ranking) :
  (forall s, In s starts -> f s = g s) ->
  extreme_windows f starts r -> extreme_windows g starts r.
Proof.
  intros Hfg (Hst & Hrw & b & w & Hb & Hw & Hbl & Hwl & Hall).
  split; [exact Hst|]. split.
  - rewrite Hrw. apply map_ext_in. exact Hfg.
  - exists b, w. repeat (split; [assumption|]).
    intros s Hs.
    rewrite <- (Hfg s Hs), <- (Hfg (nth b starts 0)), <- (Hfg (nth w starts 0))
      by (apply nth_In; assumption).
    now apply Hall.
Qed.

(** C8.  Whenever at least one window is generated, both rankers run to
    completion with top_n = 1 and select one best and one worst window.  The
    scores they rank are the scores of the generated windows (the sum of the
    per-timestep means for the JSON ranker, the sum of all rewards of the
    window for the NPZ ranker), and the score of the selected best window is
    greater than or equal to, the score of the selected worst window less
    than or equal to, the score of every generated window. *)
Theorem top_and_bottom_are_extremes :
  forall (d : Npz.data) (L : Z) (starts : list Z),
    well_formed d ->
    Npz.window_starts d L = Ok starts -> starts <> [] ->
    (exists r, Json.find_best_episodes (Npz.rewards d) L 1 = Ok r /\
               extreme_windows
                 (fun s => sum_of_agent_means (Npz.rewards d) s L) starts r) /\
    (exists r, Npz.find_best_episodes d L 1 = Ok r /\
               extreme_windows
                 (fun s => sum_of_rewards (Npz.rewards d) s L) starts r).
Proof.
  intros d L starts Hwf Hgen Hne. split.
  - apply json_top1; [|assumption].
    now rewrite <- (well_formed_starts d L Hwf).
  - destruct (npz_top1 d L starts Hwf Hgen Hne) as (r & Hr & Hx).
    exists r. split; [exact Hr|].
    apply (extreme_windows_ext (Npz.episode_reward d L)); [|exact Hx].
    intros s Hs.
    rewrite npz_window_starts_eq, Hwf in Hgen.
    destruct (generated_starts_bounds _ _ _ s (len_nonneg _) Hgen Hs)
      as (HL & H0 & Hb).
    apply npz_episode_reward_spec; lia.
Qed.

Lemma top_and_bottom_are_extremes_witness :
  (exists r, Json.find_best_episodes (Npz.rewards uneven) 2 1 = Ok r /\
             extreme_windows
               (fun s => sum_of_agent_means (Npz.rewards uneven) s 2)
               [0; 1; 2; 3; 4] r) /\
  (exists r, Npz.find_best_episodes uneven 2 1 = Ok r /\
             extreme_windows
               (fun s => sum_of_rewards (Npz.rewards uneven) s 2)
               [0; 1; 2; 3; 4] r).
Proof.
  apply (top_and_bottom_are_extremes uneven 2 [0; 1; 2; 3; 4]).
  - reflexivity.
  - reflexivity.
  - discriminate.
Defined.

(** ** The order of the selected windows *)

Lemma firstn_skipn_In {A : Type} (l : list A) (n a : nat) (x : A) :
  In x (firstn n (skipn a l)) -> In x l.
Proof.
  intros H.
  rewrite <- (firstn_skipn a l). apply in_or_app. right.
  rewrite <- (firstn_skipn n (skipn a l)). apply in_or_app. now left.
Qed.

Lemma slice_In {A : Type} (l : list A) (lo hi : option Z) (x : A) :
  In x (Py.slice l lo hi) -> In x l.
Proof. unfold Py.slice. apply firstn_skipn_In. Qed.

Ltac bind_inv H :=
  repeat match type of H with
         | bind ?m _ = Ok _ =>
             let E := fresh "E" in
             destruct m eqn:E; [rewrite bind_ok in H | discriminate H]
         end.

(** ** The rankers only look at the values of the rewards *)

Lemma same_rewards_nth (r1 r2 : list (list Q)) (i : nat) :
  same_rewards r1 r2 -> Forall2 Qeq (nth i r1 []) (nth i r2 []).
Proof.
  intros H; revert i; induction H as [|v1 v2 r1 r2 Hv _ IH]; intros [|i]; simpl;
    auto.
Qed.

Lemma Forall2_map_same {A : Type} (f g : A -> Q) (l : list A) :
  (forall x, (f x == g x)%Q) -> Forall2 Qeq (map f l) (map g l).
Proof. intros H. induction l; simpl; constructor; auto. Qed.

Lemma sum_of_agent_means_same (r1 r2 : list (list Q)) (s L : Z) :
  same_rewards r1 r2 ->
  (sum_of_agent_means r1 s L == sum_of_agent_means r2 s L)%Q.
Proof.
  intros H. unfold sum_of_agent_means.
  apply sum_same, Forall2_map_same. intros t.
  apply mean_same, same_rewards_nth, H.
Qed.

Lemma Forall2_skipn {A : Type} (R : A -> A -> Prop) (n : nat) (l1 l2 : list A) :
  Forall2 R l1 l2 -> Forall2 R (skipn n l1) (skipn n l2).
Proof.
  intros H; revert n; induction H; intros [|n]; simpl; auto.
Qed.

Lemma Forall2_firstn {A : Type} (R : A -> A -> Prop) (n : nat) (l1 l2 : list A) :
  Forall2 R l1 l2 -> Forall2 R (firstn n l1) (firstn n l2).
Proof.
  intros H; revert n; induction H; intros [|n]; simpl; auto.
Qed.

Lemma Forall2_slice {A : Type} (R : A -> A -> Prop) (l1 l2 : list A)
  (lo hi : option Z) :
  Forall2 R l1 l2 -> Forall2 R (Py.slice l1 lo hi) (Py.slice l2 lo hi).
Proof.
  intros H. unfold Py.slice, Py.len. rewrite (Forall2_length H).
  now apply Forall2_firstn, Forall2_skipn.
Qed.

Lemma np_sum_same (a1 a2 : list (list Q)) :
  same_rewards a1 a2 -> (Np.sum a1 == Np.sum a2)%Q.
Proof.
  intros H. unfold Np.sum. apply sum_same.
  induction H; simpl; [constructor|]. now apply Forall2_app.
Qed.

Lemma alike_refl {A : Type} (x : result A) : alike x x.
Proof. destruct x; simpl; auto. Qed.

Lemma min_max_alike (a1 a2 : list Q) :
  Forall2 Qeq a1 a2 ->
  alike (Np.min a1) (Np.min a2) /\ alike (Np.max a1) (Np.max a2).
Proof. intros H. destruct H; simpl; auto. Qed.

Lemma getitem_alike {A B : Type} (l1 : list A) (l2 : list B) (i : Z) :
  length l1 = length l2 -> alike (Py.getitem l1 i) (Py.getitem l2 i).
Proof.
  intros H. unfold Py.getitem, Py.len. rewrite H.
  destruct (_ && _); [|reflexivity].
  destruct (nth_error l1 _) eqn:E1, (nth_error l2 _) eqn:E2; simpl; auto.
  - apply nth_error_None in E2.
    assert (nth_error l1 (Z.to_nat (if i <? 0 then i + Z.of_nat (length l2) else i))
            <> None) as Hn by congruence.
    apply nth_error_Some in Hn. lia.
  - apply nth_error_None in E1.
    assert (nth_error l2 (Z.to_nat (if i <? 0 then i + Z.of_nat (length l2) else i))
            <> None) as Hn by congruence.
    apply nth_error_Some in Hn. lia.
Qed.

Lemma mapM_alike {A B C : Type} (f : A -> result B) (g : A -> result C)
  (l : list A) :
  (forall x, alike (f x) (g x)) -> alike (mapM f l) (mapM g l).
Proof.
  intros H. induction l as [|x l IH]; simpl; [exact I|].
  specialize (H x).
  destruct (f x), (g x); simpl in *; try contradiction; [|assumption].
  destruct (mapM f l), (mapM g l); simpl in *; auto.
Qed.

Lemma export_episode_alike (d1 d2 : Npz.data) (a b : Z) :
  length (Npz.rewards d1) = length (Npz.rewards d2) ->
  alike (Npz.export_episode d1 a b) (Npz.export_episode d2 a b).
Proof.
  intros H. unfold Npz.export_episode.
  destruct (Py.range a b 1); simpl; [|reflexivity].
  apply mapM_alike. intros t. now apply getitem_alike.
Qed.

Lemma same_ranking_bind {A B : Type} (x : result A) (y : result B)
  (k1 : A -> result ranking) (k2 : B -> result ranking) :
  alike x y ->
  (forall a b, x = Ok a -> y = Ok b -> same_ranking (k1 a) (k2 b)) ->
  same_ranking (bind x k1) (bind y k2).
Proof.
  destruct x, y; simpl; intros H Hk; try contradiction; auto.
Qed.

Ltac same_step :=
  apply same_ranking_bind;
  [ first [ apply alike_refl
          | apply getitem_alike; assumption
          | apply export_episode_alike; assumption ]
  | let a := fresh "a" in
    let b := fresh "b" in
    let Ea := fresh "Ea" in
    let Eb := fresh "Eb" in
    intros a b Ea Eb;
    try (rewrite Ea in Eb; injection Eb as <-) ].

Lemma json_same (r1 r2 : Json.trajectories) (L top_n : Z) :
  same_rewards r1 r2 ->
  same_ranking (Json.find_best_episodes r1 L top_n)
    (Json.find_best_episodes r2 L top_n).
Proof.
  intros H. unfold Json.find_best_episodes.
  assert (Hgen : Json.window_starts r1 L = Json.window_starts r2 L).
  { unfold Json.window_starts, Py.len. now rewrite (Forall2_length H). }
  destruct (Json.window_starts r2 L) as [starts|e] eqn:Hgen2;
    rewrite Hgen; [|reflexivity].
  rewrite !bind_ok.
  rewrite (json_episode_rewards_spec r1 L starts Hgen).
  rewrite (json_episode_rewards_spec r2 L starts Hgen2).
  rewrite !bind_ok.
  set (a1 := map _ starts). set (a2 := map _ starts).
  assert (HF : Forall2 Qeq a1 a2).
  { apply Forall2_map_same. intros s. now apply sum_of_agent_means_same. }
  assert (Hlen : length a1 = length a2) by exact (Forall2_length HF).
  destruct (min_max_alike a1 a2 HF) as [Hmin Hmax].
  apply same_ranking_bind; [exact Hmin | intros _ _ _ _].
  apply same_ranking_bind; [exact Hmax | intros _ _ _ _].
  rewrite (argsort_same a1 a2 HF).
  replace (Py.len a1) with (Py.len a2) by (unfold Py.len; now rewrite Hlen).
  do 6 same_step.
  simpl. auto.
Qed.

Lemma npz_same (d1 d2 : Npz.data) (L top_n : Z) :
  Npz.n_timesteps d1 = Npz.n_timesteps d2 ->
  same_rewards (Npz.rewards d1) (Npz.rewards d2) ->
  same_ranking (Npz.find_best_episodes d1 L top_n)
    (Npz.find_best_episodes d2 L top_n).
Proof.
  intros HT H. unfold Npz.find_best_episodes.
  assert (Hgen : Npz.window_starts d1 L = Npz.window_starts d2 L).
  { unfold Npz.window_starts. now rewrite HT. }
  rewrite Hgen.
  destruct (Npz.window_starts d2 L) as [starts|e]; [|reflexivity].
  rewrite !bind_ok.
  set (a1 := map _ starts). set (a2 := map _ starts).
  assert (HF : Forall2 Qeq a1 a2).
  { apply Forall2_map_same. intros s. unfold Npz.episode_reward.
    now apply np_sum_same, Forall2_slice. }
  assert (Hlen : length a1 = length a2) by exact (Forall2_length HF).
  assert (Hrows : length (Npz.rewards d1) = length (Npz.rewards d2))
    by exact (Forall2_length H).
  destruct (min_max_alike a1 a2 HF) as [Hmin Hmax].
  apply same_ranking_bind; [exact Hmin | intros _ _ _ _].
  apply same_ranking_bind; [exact Hmax | intros _ _ _ _].
  rewrite (argsort_same a1 a2 HF).
  do 8 same_step.
  simpl. auto.
Qed.

(** C9.  The ranking is determined by its inputs: two runs on the same window
    length, the same top_n, the same number of timesteps and reward arrays
    holding the same numbers end alike, with the same exception or with
    identical ordered top-K and bottom-K index lists, identical window starts
    and equal scores. *)
Theorem ranking_is_deterministic :
  forall (d1 d2 : Npz.data) (L top_n : Z),
    Npz.n_timesteps d1 = Npz.n_timesteps d2 ->
    same_rewards (Npz.rewards d1) (Npz.rewards d2) ->
    same_ranking (Json.find_best_episodes (Npz.rewards d1) L top_n)
      (Json.find_best_episodes (Npz.rewards d2) L top_n) /\
    same_ranking (Npz.find_best_episodes d1 L top_n)
      (Npz.find_best_episodes d2 L top_n).
Proof.
  intros d1 d2 L top_n HT H. split.
  - now apply json_same.
  - now apply npz_same.
Qed.

Lemma ranking_is_deterministic_witness :
  same_ranking (Json.find_best_episodes (Npz.rewards uneven) 2 2)
    (Json.find_best_episodes (Npz.rewards uneven_halves) 2 2) /\
  same_ranking (Npz.find_best_episodes uneven 2 2)
    (Npz.find_best_episodes uneven_halves 2 2).
Proof.
  apply (ranking_is_deterministic uneven uneven_halves 2 2).
  - reflexivity.
  - unfold same_rewards, uneven, uneven_halves. simpl.
    repeat constructor; reflexivity.
Defined.

(** * Further properties of the scripts *)

(** ** The geometry of the generated windows *)

Lemma generated_starts_In (T L s : Z) (starts : list Z) :
  2 <= L -> generated_starts T L = Ok starts ->
  (In s starts <-> 0 <= s /\ s mod (L / 2) = 0 /\ s < T - L).
Proof.
  intros HL Hgen.
  assert (HS : 0 < L / 2) by (apply Z.div_str_pos; lia).
  rewrite generated_starts_spec in Hgen by assumption.
  injection Hgen as <-.
  set (st := L / 2) in *.
  assert (Hq : forall k, 0 <= k ->
            (k < (T - L + st - 1) / st <-> k * st < T - L)).
  { intros k Hk. split; intros H.
    - assert (k + 1 <= (T - L + st - 1) / st) as H1 by lia.
      assert (st * (k + 1) <= T - L + st - 1); [|lia].
      eapply Z.le_trans; [apply Z.mul_le_mono_nonneg_l; [lia | exact H1]|].
      apply Z.mul_div_le. lia.
    - assert (k + 1 <= (T - L + st - 1) / st); [|lia].
      apply Z.div_le_lower_bound; lia. }
  rewrite in_map_iff. split.
  - intros [k [<- Hk]]. apply in_seq in Hk.
    split; [lia|]. split; [apply Z.mod_mul; lia|].
    apply Hq; lia.
  - intros (H0 & Hm & Hlt).
    assert (Hs : s = s / st * st).
    { rewrite Z.mul_comm. apply Z.div_exact; lia. }
    assert (0 <= s / st) by (apply Z.div_pos; lia).
    exists (Z.to_nat (s / st)). split; [lia|].
    apply in_seq. split; [lia|]. simpl.
    assert (s / st < (T - L + st - 1) / st) by (apply Hq; lia).
    lia.
Qed.

Lemma multiples_increasing (st : Z) (a n : nat) :
  0 < st ->
  StronglySorted Z.lt (map (fun k => Z.of_nat k * st) (seq a n)).
Proof.
  intros HS. revert a; induction n as [|n IH]; intros a; simpl; constructor.
  - apply IH.
  - apply Forall_forall. intros x Hx.
    apply in_map_iff in Hx as [k [<- Hk]]. apply in_seq in Hk. nia.
Qed.

Lemma generated_starts_increasing (T L : Z) (starts : list Z) :
  0 <= T -> generated_starts T L = Ok starts -> StronglySorted Z.lt starts.
Proof.
  intros HT Hgen.
  destruct (Z_lt_le_dec L 0).
  - rewrite generated_starts_negative in Hgen by lia.
    injection Hgen as <-. constructor.
  - destruct (Z_le_gt_dec L 1).
    + rewrite generated_starts_stride_zero in Hgen by lia. discriminate.
    + rewrite generated_starts_spec in Hgen by lia. injection Hgen as <-.
      apply multiples_increasing. apply Z.div_str_pos. lia.
Qed.

(* With 2 <= L the generation succeeds. *)
Lemma generated_starts_ok (T L : Z) :
  2 <= L -> exists starts, generated_starts T L = Ok starts.
Proof. intros HL. rewrite generated_starts_spec by assumption. eauto. Qed.

Lemma window_count_pos (T L : Z) :
  2 <= L -> L < T -> 1 <= window_count T L.
Proof.
  intros HL HT. unfold window_count.
  assert (0 < L / 2) by (apply Z.div_str_pos; lia).
  rewrite (range_count_step (T - L) (L / 2)) by lia. lia.
Qed.

Lemma generated_starts_length (T L : Z) (starts : list Z) :
  2 <= L -> generated_starts T L = Ok starts ->
  Py.len starts = window_count T L.
Proof.
  intros HL Hgen. rewrite generated_starts_spec in Hgen by assumption.
  injection Hgen as <-.
  unfold Py.len, window_count, range_count.
  rewrite length_map, length_seq, Z.sub_0_r. reflexivity.
Qed.

Lemma generated_starts_nonempty (T L : Z) (starts : list Z) :
  0 <= T -> generated_starts T L = Ok starts ->
  (starts <> [] <-> 2 <= L < T).
Proof.
  intros HT Hgen. split.
  - intros Hne. destruct starts as [|s r]; [congruence|].
    destruct (generated_starts_bounds T L (s :: r) s HT Hgen) as (H2 & H0 & Hb);
      [now left | lia].
  - intros [HL HLT] ->.
    pose proof (generated_starts_length T L [] HL Hgen) as Hlen.
    pose proof (window_count_pos T L HL HLT). unfold Py.len in Hlen.
    simpl in Hlen. lia.
Qed.

(** X1.  For a window length L >= 2 both loops generate exactly the
    non-negative multiples of the stride L // 2 that lie below T - L, in
    strictly increasing order, so the index of a window in the score array
    orders the windows by start. *)
Theorem starts_are_the_stride_multiples_below_T_minus_L :
  forall (d : Npz.data) (L : Z),
    well_formed d -> 2 <= L ->
    exists starts,
      Npz.window_starts d L = Ok starts /\
      Json.window_starts (Npz.rewards d) L = Ok starts /\
      StronglySorted Z.lt starts /\
      Py.len starts = window_count (Npz.n_timesteps d) L /\
      forall s, In s starts <->
                0 <= s /\ s mod Npz.step_size L = 0 /\
                s + L < Npz.n_timesteps d.
Proof.
  intros d L Hwf HL.
  destruct (generated_starts_ok (Npz.n_timesteps d) L HL) as [starts Hgen].
  assert (HT : 0 <= Npz.n_timesteps d) by (rewrite Hwf; apply len_nonneg).
  exists starts. split; [exact Hgen|].
  split; [rewrite <- (well_formed_starts d L Hwf); exact Hgen|].
  split; [now apply (generated_starts_increasing (Npz.n_timesteps d) L)|].
  split; [now apply generated_starts_length|].
  intros s. rewrite (generated_starts_In _ _ s _ HL Hgen).
  unfold Npz.step_size, Py.floordiv. split; intros (? & ? & ?); repeat split; lia.
Qed.

Lemma starts_are_the_stride_multiples_below_T_minus_L_witness :
  exists starts,
    Npz.window_starts (one_agent 10) 4 = Ok starts /\
    Json.window_starts (Npz.rewards (one_agent 10)) 4 = Ok starts /\
    StronglySorted Z.lt starts /\
    Py.len starts = window_count (Npz.n_timesteps (one_agent 10)) 4 /\
    forall s, In s starts <->
              0 <= s /\ s mod Npz.step_size 4 = 0 /\
              s + 4 < Npz.n_timesteps (one_agent 10).
Proof.
  apply (starts_are_the_stride_multiples_below_T_minus_L (one_agent 10) 4).
  - reflexivity.
  - lia.
Defined.

(** X2.  Windows are generated exactly when 2 <= L < T. *)
Theorem windows_exist_iff_window_fits_strictly :
  forall (d : Npz.data) (L : Z),
    well_formed d ->
    ((exists s starts, Npz.window_starts d L = Ok (s :: starts)) <->
     2 <= L < Npz.n_timesteps d) /\
    ((exists s starts, Json.window_starts (Npz.rewards d) L = Ok (s :: starts)) <->
     2 <= L < Npz.n_timesteps d).
Proof.
  intros d L Hwf.
  assert (HT : 0 <= Npz.n_timesteps d) by (rewrite Hwf; apply len_nonneg).
  rewrite <- (well_formed_starts d L Hwf), npz_window_starts_eq.
  assert (H : (exists s starts, generated_starts (Npz.n_timesteps d) L = Ok (s :: starts))
              <-> 2 <= L < Npz.n_timesteps d).
  { split.
    - intros (s & starts & Hgen).
      apply (generated_starts_nonempty _ _ _ HT Hgen). discriminate.
    - intros HL.
      destruct (generated_starts_ok (Npz.n_timesteps d) L) as [starts Hgen]; [lia|].
      destruct starts as [|s r]; [|eauto].
      exfalso. now apply (generated_starts_nonempty _ _ _ HT Hgen). }
  split; exact H.
Qed.

Lemma windows_exist_iff_window_fits_strictly_witness :
  ((exists s starts, Npz.window_starts (one_agent 10) 4 = Ok (s :: starts)) <->
   2 <= 4 < Npz.n_timesteps (one_agent 10)) /\
  ((exists s starts,
       Json.window_starts (Npz.rewards (one_agent 10)) 4 = Ok (s :: starts)) <->
   2 <= 4 < Npz.n_timesteps (one_agent 10)).
Proof.
  apply (windows_exist_iff_window_fits_strictly (one_agent 10) 4). reflexivity.
Defined.

(** X3.  The windows leave no gap: for 2 <= L < T every timestep below
    T - L // 2 lies in some generated window, so at most L // 2 timesteps at
    the end of the trajectory are scored by no window. *)
Theorem windows_cover_all_but_the_last_stride :
  forall (d : Npz.data) (L : Z) (starts : list Z) (t : Z),
    well_formed d -> 2 <= L < Npz.n_timesteps d ->
    Npz.window_starts d L = Ok starts ->
    0 <= t < Npz.n_timesteps d - Npz.step_size L ->
    exists s, In s starts /\ in_window s L t.
Proof.
  intros d L starts t Hwf [HL HLT] Hgen Ht.
  rewrite npz_window_starts_eq in Hgen.
  unfold Npz.step_size, Py.floordiv in Ht.
  set (T := Npz.n_timesteps d) in *. set (st := L / 2) in *.
  assert (HS : 0 < st) by (apply Z.div_str_pos; lia).
  assert (HSL : st <= L).
  { unfold st. apply Z.div_le_upper_bound; lia. }
  assert (Hfl : forall x, 0 <= x -> 0 <= x / st * st <= x /\ x < x / st * st + st /\
                                   (x / st * st) mod st = 0).
  { intros x Hx. pose proof (Z.div_mod x st ltac:(lia)).
    pose proof (Z.mod_pos_bound x st HS).
    pose proof (Z.div_pos x st Hx HS).
    split; [split; [nia | lia]|]. split; [lia|]. apply Z.mod_mul. lia. }
  destruct (Z_lt_le_dec (t / st * st) (T - L)) as [Hin|Hout].
  - exists (t / st * st). destruct (Hfl t ltac:(lia)) as (H1 & H2 & H3).
    split; [|unfold in_window; lia].
    apply (generated_starts_In T L _ starts HL Hgen).
    split; [lia|]. split; [exact H3 | lia].
  - exists ((T - L - 1) / st * st).
    destruct (Hfl t ltac:(lia)) as (H1 & H2 & H3).
    destruct (Hfl (T - L - 1) ltac:(lia)) as (H4 & H5 & H6).
    split; [|unfold in_window; lia].
    apply (generated_starts_In T L _ starts HL Hgen).
    split; [lia|]. split; [exact H6 | lia].
Qed.

Lemma windows_cover_all_but_the_last_stride_witness :
  exists s, In s [0; 2; 4] /\ in_window s 4 7.
Proof.
  apply (windows_cover_all_but_the_last_stride (one_agent 10) 4 [0; 2; 4] 7).
  - reflexivity.
  - simpl. lia.
  - reflexivity.
  - simpl. unfold Npz.step_size, Py.floordiv. simpl. lia.
Defined.

(** ** The slices that select the best and the worst windows *)

Lemma clamp_bounds (n i : Z) : 0 <= n -> 0 <= Py.clamp n i <= n.
Proof. unfold Py.clamp. destruct (Z.ltb_spec i 0); lia. Qed.

Lemma clamp_min (n i : Z) : 0 <= n -> Py.clamp n (Z.min i n) = Py.clamp n i.
Proof.
  intros Hn. unfold Py.clamp.
  destruct (Z.ltb_spec i 0), (Z.ltb_spec (Z.min i n) 0); lia.
Qed.

Lemma slice_from {A : Type} (l : list A) (i : Z) :
  Py.slice l (Some i) None = skipn (Z.to_nat (Py.clamp (Py.len l) i)) l.
Proof.
  unfold Py.slice. apply firstn_all2.
  pose proof (clamp_bounds (Py.len l) i (len_nonneg l)).
  rewrite length_skipn. unfold Py.len in *. lia.
Qed.

Lemma slice_to {A : Type} (l : list A) (j : Z) :
  Py.slice l None (Some j) = firstn (Z.to_nat (Py.clamp (Py.len l) j)) l.
Proof. unfold Py.slice. now rewrite Z.sub_0_r. Qed.

Lemma last_skipn {A : Type} (l : list A) (i : nat) (d : A) :
  (i < length l)%nat -> last (skipn i l) d = last l d.
Proof.
  revert l; induction i as [|i IH]; intros l Hi; [reflexivity|].
  destruct l as [|x l]; [simpl in Hi; lia|].
  simpl skipn. rewrite IH by (simpl in Hi; lia).
  destruct l; [simpl in Hi; lia | reflexivity].
Qed.

Lemma rev_skipn_head {A : Type} (l : list A) (i : nat) (d : A) :
  (i < length l)%nat ->
  exists rest, rev (skipn i l) = last l d :: rest.
Proof.
  intros Hi.
  assert (Hne : skipn i l <> []).
  { intros E. apply (f_equal (@length A)) in E.
    rewrite length_skipn in E. simpl in E. lia. }
  rewrite (app_removelast_last d Hne), rev_app_distr, (last_skipn l i d Hi).
  simpl. eauto.
Qed.

Lemma firstn_head {A : Type} (l : list A) (j : nat) (d : A) :
  (0 < j)%nat -> l <> [] -> exists rest, firstn j l = hd d l :: rest.
Proof.
  intros Hj Hl. destruct l as [|x l]; [congruence|].
  destruct j as [|j]; [lia|]. simpl. eauto.
Qed.

Section Selection.

Variable order : list nat.
Variable top_n : Z.
Hypothesis order_nonempty : order <> [].

Let n := Py.len order.

Lemma order_len_pos : 1 <= n.
Proof. unfold n, Py.len. destruct order; [congruence | simpl length; lia]. Qed.

(* order[-top_n:][::-1] starts with the last index of the order unless the
   slice is empty *)
Lemma best_head :
  1 <= top_n \/ - n < top_n <= 0 ->
  exists rest, rev (Py.slice order (Some (- top_n)) None) = last order O :: rest.
Proof.
  intros H. pose proof order_len_pos as Hn. rewrite slice_from.
  apply rev_skipn_head. fold n.
  assert (Py.clamp n (- top_n) < n).
  { unfold Py.clamp. destruct (Z.ltb_spec (- top_n) 0); lia. }
  pose proof (clamp_bounds n (- top_n)). unfold n, Py.len in *. lia.
Qed.

Lemma best_empty :
  top_n <= - n -> rev (Py.slice order (Some (- top_n)) None) = [].
Proof.
  intros H. pose proof order_len_pos as Hn. rewrite slice_from. fold n.
  assert (Py.clamp n (- top_n) = n) as ->.
  { unfold Py.clamp. destruct (Z.ltb_spec (- top_n) 0); lia. }
  unfold n, Py.len. rewrite Nat2Z.id, skipn_all. reflexivity.
Qed.

(* order[:top_n] starts with the first index of the order unless the slice
   is empty *)
Lemma worst_head :
  1 <= top_n \/ - n < top_n < 0 ->
  exists rest, Py.slice order None (Some top_n) = hd O order :: rest.
Proof.
  intros H. pose proof order_len_pos as Hn. rewrite slice_to. fold n.
  apply firstn_head; [|assumption].
  assert (1 <= Py.clamp n top_n); [|lia].
  unfold Py.clamp. destruct (Z.ltb_spec top_n 0); lia.
Qed.

Lemma worst_empty :
  top_n = 0 \/ top_n <= - n -> Py.slice order None (Some top_n) = [].
Proof.
  intros H. pose proof order_len_pos as Hn. rewrite slice_to. fold n.
  assert (Py.clamp n top_n = 0) as ->; [|reflexivity].
  unfold Py.clamp. destruct (Z.ltb_spec top_n 0); lia.
Qed.

End Selection.

Lemma getitem_empty {A : Type} (i : Z) : Py.getitem (@nil A) i = Err IndexError.
Proof.
  unfold Py.getitem, Py.len. simpl.
  destruct (i <? 0); destruct (_ && _) eqn:E; try reflexivity;
    destruct (Z.to_nat _); reflexivity.
Qed.

Lemma selects_cases (n top_n : Z) :
  1 <= n ->
  selects n top_n \/ top_n = 0 \/ top_n <= - n.
Proof. unfold selects. lia. Qed.

(** ** The outcome of a ranker run *)

Lemma slice_to_min {A : Type} (l : list A) (j : Z) :
  Py.slice l None (Some (Z.min j (Py.len l))) = Py.slice l None (Some j).
Proof. now rewrite !slice_to, clamp_min by apply len_nonneg. Qed.

Lemma argsort_len (a : list Q) : Py.len (Np.argsort a) = Py.len a.
Proof. unfold Py.len. now rewrite argsort_length. Qed.

Lemma json_returns (trajectories : Json.trajectories) (L top_n : Z)
  (starts : list Z) :
  Json.window_starts trajectories L = Ok starts -> starts <> [] ->
  selects (Py.len starts) top_n ->
  let a := map (fun s => sum_of_agent_means trajectories s L) starts in
  Json.find_best_episodes trajectories L top_n =
  Ok {| best_indices := rev (Py.slice (Np.argsort a) (Some (- top_n)) None);
        worst_indices := Py.slice (Np.argsort a) None (Some (Z.min top_n (Py.len a)));
        episode_starts := starts;
        episode_rewards := a |}.
Proof.
  intros Hgen Hne Hsel a. unfold Json.find_best_episodes.
  rewrite Hgen, bind_ok, (json_episode_rewards_spec _ _ _ Hgen), bind_ok.
  fold a.
  assert (Hlen : length a = length starts) by apply length_map.
  assert (Ha : a <> []).
  { intros E. rewrite E in Hlen. destruct starts; [congruence|discriminate]. }
  destruct (min_max_ok a Ha) as (lo & hi & -> & ->). rewrite !bind_ok.
  pose proof (argsort_nonempty a Ha) as Ho.
  assert (Hn : Py.len (Np.argsort a) = Py.len starts).
  { rewrite argsort_len. unfold Py.len. now rewrite Hlen. }
  rewrite <- (argsort_len a), slice_to_min.
  destruct (best_head (Np.argsort a) top_n Ho) as [rb Eb];
    [rewrite Hn; unfold selects in Hsel; lia|].
  destruct (worst_head (Np.argsort a) top_n Ho) as [rw Ew];
    [rewrite Hn; exact Hsel|].
  rewrite Eb, Ew, !getitem_first, !bind_ok.
  assert (Hb : (last (Np.argsort a) O < length a)%nat)
    by (apply argsort_In, last_In, Ho).
  assert (Hw : (hd O (Np.argsort a) < length a)%nat)
    by (apply argsort_In, hd_In, Ho).
  rewrite (getitem_in_bounds starts _ 0) by (unfold Py.len; lia).
  rewrite (getitem_in_bounds a _ 0%Q) by (unfold Py.len; lia).
  rewrite (getitem_in_bounds starts _ 0) by (unfold Py.len; lia).
  rewrite (getitem_in_bounds a _ 0%Q) by (unfold Py.len; lia).
  reflexivity.
Qed.

Lemma json_index_error (trajectories : Json.trajectories) (L top_n : Z)
  (starts : list Z) :
  Json.window_starts trajectories L = Ok starts -> starts <> [] ->
  ~ selects (Py.len starts) top_n ->
  Json.find_best_episodes trajectories L top_n = Err IndexError.
Proof.
  intros Hgen Hne Hsel. unfold Json.find_best_episodes.
  rewrite Hgen, bind_ok, (json_episode_rewards_spec _ _ _ Hgen), bind_ok.
  set (a := map _ starts).
  assert (Hlen : length a = length starts) by apply length_map.
  assert (Ha : a <> []).
  { intros E. rewrite E in Hlen. destruct starts; [congruence|discriminate]. }
  destruct (min_max_ok a Ha) as (lo & hi & -> & ->). rewrite !bind_ok.
  pose proof (argsort_nonempty a Ha) as Ho.
  assert (Hn : Py.len (Np.argsort a) = Py.len starts).
  { rewrite argsort_len. unfold Py.len. now rewrite Hlen. }
  rewrite <- (argsort_len a), slice_to_min.
  assert (Hpos : 1 <= Py.len starts).
  { unfold Py.len. destruct starts; [congruence | simpl length; lia]. }
  destruct (selects_cases (Py.len starts) top_n Hpos) as [H|[H|H]];
    [contradiction | |].
  - destruct (best_head (Np.argsort a) top_n Ho) as [rb Eb]; [rewrite Hn; lia|].
    rewrite (worst_empty (Np.argsort a) top_n Ho) by (now left).
    rewrite Eb, !getitem_first, !bind_ok.
    assert (Hb : (last (Np.argsort a) O < length a)%nat)
      by (apply argsort_In, last_In, Ho).
    rewrite (getitem_in_bounds starts _ 0) by (unfold Py.len; lia).
    rewrite (getitem_in_bounds a _ 0%Q) by (unfold Py.len; lia).
    rewrite !bind_ok, getitem_empty. reflexivity.
  - rewrite (best_empty (Np.argsort a) top_n Ho) by (rewrite Hn; lia).
    rewrite getitem_empty. reflexivity.
Qed.

Lemma npz_returns (d : Npz.data) (L top_n : Z) (starts : list Z) :
  well_formed d ->
  Npz.window_starts d L = Ok starts -> starts <> [] ->
  selects (Py.len starts) top_n ->
  let a := map (Npz.episode_reward d L) starts in
  Npz.find_best_episodes d L top_n =
  Ok {| best_indices := rev (Py.slice (Np.argsort a) (Some (- top_n)) None);
        worst_indices := Py.slice (Np.argsort a) None (Some top_n);
        episode_starts := starts;
        episode_rewards := a |}.
Proof.
  intros Hwf Hgen Hne Hsel a. unfold Npz.find_best_episodes.
  rewrite Hgen, bind_ok. fold a.
  assert (Hlen : length a = length starts) by apply length_map.
  assert (Ha : a <> []).
  { intros E. rewrite E in Hlen. destruct starts; [congruence|discriminate]. }
  destruct (min_max_ok a Ha) as (lo & hi & -> & ->). rewrite !bind_ok.
  pose proof (argsort_nonempty a Ha) as Ho.
  assert (Hn : Py.len (Np.argsort a) = Py.len starts).
  { rewrite argsort_len. unfold Py.len. now rewrite Hlen. }
  assert (Hexp : forall i, (i < length starts)%nat ->
            exists rows, Npz.export_episode d (nth i starts 0)
                           (nth i starts 0 + L) = Ok rows).
  { intros i Hi.
    rewrite npz_window_starts_eq, Hwf in Hgen.
    destruct (generated_starts_bounds _ _ _ (nth i starts 0) (len_nonneg _) Hgen)
      as (_ & H0 & Hbd); [now apply nth_In|].
    apply export_episode_ok; lia. }
  destruct (best_head (Np.argsort a) top_n Ho) as [rb Eb];
    [rewrite Hn; unfold selects in Hsel; lia|].
  destruct (worst_head (Np.argsort a) top_n Ho) as [rw Ew];
    [rewrite Hn; exact Hsel|].
  rewrite Eb, Ew, !getitem_first, !bind_ok.
  assert (Hb : (last (Np.argsort a) O < length a)%nat)
    by (apply argsort_In, last_In, Ho).
  assert (Hw : (hd O (Np.argsort a) < length a)%nat)
    by (apply argsort_In, hd_In, Ho).
  rewrite (getitem_in_bounds starts _ 0) by (unfold Py.len; lia).
  rewrite (getitem_in_bounds a _ 0%Q) by (unfold Py.len; lia).
  rewrite (getitem_in_bounds starts _ 0) by (unfold Py.len; lia).
  rewrite (getitem_in_bounds a _ 0%Q) by (unfold Py.len; lia).
  rewrite !bind_ok, !Nat2Z.id.
  destruct (Hexp (last (Np.argsort a) O)) as [r1 ->]; [lia|].
  destruct (Hexp (hd O (Np.argsort a))) as [r2 ->]; [lia|].
  reflexivity.
Qed.

Lemma npz_index_error (d : Npz.data) (L top_n : Z) (starts : list Z) :
  well_formed d ->
  Npz.window_starts d L = Ok starts -> starts <> [] ->
  ~ selects (Py.len starts) top_n ->
  Npz.find_best_episodes d L top_n = Err IndexError.
Proof.
  intros Hwf Hgen Hne Hsel. unfold Npz.find_best_episodes.
  rewrite Hgen, bind_ok.
  set (a := map _ starts).
  assert (Hlen : length a = length starts) by apply length_map.
  assert (Ha : a <> []).
  { intros E. rewrite E in Hlen. destruct starts; [congruence|discriminate]. }
  destruct (min_max_ok a Ha) as (lo & hi & -> & ->). rewrite !bind_ok.
  pose proof (argsort_nonempty a Ha) as Ho.
  assert (Hn : Py.len (Np.argsort a) = Py.len starts).
  { rewrite argsort_len. unfold Py.len. now rewrite Hlen. }
  assert (Hpos : 1 <= Py.len starts).
  { unfold Py.len. destruct starts; [congruence | simpl length; lia]. }
  destruct (selects_cases (Py.len starts) top_n Hpos) as [H|[H|H]];
    [contradiction | |].
  - destruct (best_head (Np.argsort a) top_n Ho) as [rb Eb]; [rewrite Hn; lia|].
    rewrite (worst_empty (Np.argsort a) top_n Ho) by (now left).
    rewrite Eb, !getitem_first, !bind_ok.
    assert (Hb : (last (Np.argsort a) O < length a)%nat)
      by (apply argsort_In, last_In, Ho).
    rewrite (getitem_in_bounds starts _ 0) by (unfold Py.len; lia).
    rewrite (getitem_in_bounds a _ 0%Q) by (unfold Py.len; lia).
    rewrite !bind_ok, !Nat2Z.id.
    rewrite npz_window_starts_eq, Hwf in Hgen.
    destruct (generated_starts_bounds _ _ _
                (nth (last (Np.argsort a) O) starts 0) (len_nonneg _) Hgen)
      as (_ & H0 & Hbd); [apply nth_In; lia|].
    destruct (export_episode_ok d (nth (last (Np.argsort a) O) starts 0) L)
      as [rows ->]; [lia | lia |].
    rewrite !bind_ok, getitem_empty. reflexivity.
  - rewrite (best_empty (Np.argsort a) top_n Ho) by (rewrite Hn; lia).
    rewrite getitem_empty. reflexivity.
Qed.

Lemma selects_dec (n top_n : Z) : selects n top_n \/ ~ selects n top_n.
Proof. unfold selects. lia. Qed.

Lemma json_window_error (trajectories : Json.trajectories) (L top_n : Z) (e : exn) :
  Json.window_starts trajectories L = Err e ->
  Json.find_best_episodes trajectories L top_n = Err e.
Proof. intros H. unfold Json.find_best_episodes. now rewrite H. Qed.

Lemma npz_window_error (d : Npz.data) (L top_n : Z) (e : exn) :
  Npz.window_starts d L = Err e ->
  Npz.find_best_episodes d L top_n = Err e.
Proof. intros H. unfold Npz.find_best_episodes. now rewrite H. Qed.

(* What a returned ranking is made of. *)
Lemma json_shape (trajectories : Json.trajectories) (L top_n : Z) (r : ranking) :
  Json.find_best_episodes trajectories L top_n = Ok r ->
  exists starts,
    Json.window_starts trajectories L = Ok starts /\ starts <> [] /\
    selects (Py.len starts) top_n /\
    let a := map (fun s => sum_of_agent_means trajectories s L) starts in
    r = {| best_indices := rev (Py.slice (Np.argsort a) (Some (- top_n)) None);
           worst_indices := Py.slice (Np.argsort a) None (Some top_n);
           episode_starts := starts;
           episode_rewards := a |}.
Proof.
  intros H.
  destruct (Json.window_starts trajectories L) as [starts|e] eqn:Hgen.
  - exists starts. split; [reflexivity|].
    assert (Hne : starts <> []).
    { intros ->. rewrite json_no_window in H by (rewrite Hgen; now right).
      discriminate. }
    split; [exact Hne|].
    destruct (selects_dec (Py.len starts) top_n) as [Hs|Hs].
    + split; [exact Hs|]. cbv zeta.
      rewrite (json_returns _ _ _ _ Hgen Hne Hs) in H.
      injection H as <-.
      rewrite <- (argsort_len (map _ starts)), slice_to_min. reflexivity.
    + rewrite (json_index_error _ _ _ _ Hgen Hne Hs) in H. discriminate.
  - rewrite (json_window_error _ _ _ _ Hgen) in H. discriminate.
Qed.

Lemma npz_shape (d : Npz.data) (L top_n : Z) (r : ranking) :
  well_formed d ->
  Npz.find_best_episodes d L top_n = Ok r ->
  exists starts,
    Npz.window_starts d L = Ok starts /\ starts <> [] /\
    selects (Py.len starts) top_n /\
    let a := map (Npz.episode_reward d L) starts in
    r = {| best_indices := rev (Py.slice (Np.argsort a) (Some (- top_n)) None);
           worst_indices := Py.slice (Np.argsort a) None (Some top_n);
           episode_starts := starts;
           episode_rewards := a |}.
Proof.
  intros Hwf H.
  destruct (Npz.window_starts d L) as [starts|e] eqn:Hgen.
  - exists starts. split; [reflexivity|].
    assert (Hne : starts <> []).
    { intros ->. rewrite npz_no_window in H by (rewrite Hgen; now right).
      discriminate. }
    split; [exact Hne|].
    destruct (selects_dec (Py.len starts) top_n) as [Hs|Hs].
    + split; [exact Hs|]. cbv zeta.
      rewrite (npz_returns _ _ _ _ Hwf Hgen Hne Hs) in H.
      now injection H as <-.
    + rewrite (npz_index_error _ _ _ _ Hwf Hgen Hne Hs) in H. discriminate.
  - rewrite (npz_window_error _ _ _ _ Hgen) in H. discriminate.
Qed.

(** ** The order of the selected windows *)

Lemma StronglySorted_weaken {A : Type} (R R' : A -> A -> Prop) (l : list A) :
  (forall x y, In x l -> In y l -> R x y -> R' x y) ->
  StronglySorted R l -> StronglySorted R' l.
Proof.
  intros H Hs. induction Hs as [|a l Hs IH Ha]; constructor.
  - apply IH. intros x y Hx Hy. apply H; now right.
  - rewrite Forall_forall in *. intros y Hy.
    apply H; [now left | now right | now apply Ha].
Qed.

(* What the slices make of any arrangement of the indices in ascending score
   order, whatever it does with equal scores. *)
Section AnyAscendingOrder.

Variable key : nat -> Q.
Variable order : list nat.
Hypothesis order_ascending : StronglySorted (fun i j => (key i <= key j)%Q) order.

Lemma reversed_tail_descending (lo : option Z) :
  StronglySorted (fun i j => (key j <= key i)%Q) (rev (Py.slice order lo None)).
Proof.
  apply (StronglySorted_rev (fun i j => (key i <= key j)%Q)).
  now apply StronglySorted_slice.
Qed.

Lemma head_ascending (hi : option Z) :
  StronglySorted (fun i j => (key i <= key j)%Q) (Py.slice order None hi).
Proof. now apply StronglySorted_slice. Qed.

End AnyAscendingOrder.

Lemma argsort_ascending (a : list Q) :
  StronglySorted (fun i j => (score a i <= score a j)%Q) (Np.argsort a).
Proof.
  apply (StronglySorted_weaken (ascending_earliest (score a))).
  - intros x y _ _. apply ascending_earliest_le.
  - apply argsort_sorted.
Qed.

Lemma selection_by_score (score_of : Z -> Q) (starts : list Z) (top_n : Z) :
  let a := map score_of starts in
  ranked_by_score score_of top_n
    {| best_indices := rev (Py.slice (Np.argsort a) (Some (- top_n)) None);
       worst_indices := Py.slice (Np.argsort a) None (Some top_n);
       episode_starts := starts;
       episode_rewards := a |}.
Proof.
  intros a. unfold ranked_by_score. simpl.
  split; [reflexivity|].
  split; [apply reversed_tail_descending, argsort_ascending|].
  split; [apply head_ascending, argsort_ascending|].
  split; [|split].
  - apply Forall_rev, Forall_forall. intros i Hi.
    now apply slice_In, argsort_In in Hi.
  - apply Forall_forall. intros i Hi.
    now apply slice_In, argsort_In in Hi.
  - exists (Np.argsort a).
    split; [apply argsort_perm|]. split; [apply argsort_ascending|].
    split; reflexivity.
Qed.

(* A list and its reverse are both strictly increasing only if the list has
   at most one element. *)
Lemma increasing_both_ways (l : list nat) :
  StronglySorted lt l -> StronglySorted lt (rev l) -> (length l <= 1)%nat.
Proof.
  intros Hup Hdown. destruct l as [|x [|y l]]; simpl; try lia.
  apply StronglySorted_inv in Hup as [_ Hx]. apply Forall_inv in Hx.
  simpl in Hdown.
  apply StronglySorted_app_inv in Hdown as (_ & _ & H).
  specialize (H y x). 
  assert (y < x)%nat; [|lia].
  apply H; [apply in_or_app; right|]; now left.
Qed.

(** C4 (as stated, refuted).  On seven timesteps of equal reward with window
    length 2 all five windows score the same.  With top_n = 5 the ranker
    lists all of them as best and all of them as worst, the best list being
    the reverse of the worst list, so the two lists cannot both put the
    earliest start first among equal scores: the returned ranking does not,
    and neither would any other order of the five windows that the sort may
    return. *)
Lemma ties_cannot_be_earliest_first_in_both_lists :
  (exists r, Json.find_best_episodes (Npz.rewards (one_agent 7)) 2 5 = Ok r /\
             ~ ranked_earliest r) /\
  ~ (exists order : list nat,
       Permutation order (seq 0 5) /\
       StronglySorted
         (descending_earliest
            (score (map (fun s => sum_of_agent_means (Npz.rewards (one_agent 7)) s 2)
                      [0; 1; 2; 3; 4])))
         (rev order) /\
       StronglySorted
         (ascending_earliest
            (score (map (fun s => sum_of_agent_means (Npz.rewards (one_agent 7)) s 2)
                      [0; 1; 2; 3; 4])))
         order).
Proof.
  set (key := score (map (fun s => sum_of_agent_means (Npz.rewards (one_agent 7)) s 2)
                       [0; 1; 2; 3; 4])).
  assert (Hk : forall i, In i (seq 0 5) -> (key i == key O)%Q).
  { intros i Hi. simpl in Hi.
    destruct Hi as [<-|[<-|[<-|[<-|[<-|[]]]]]]; vm_compute; reflexivity. }
  assert (Hno : ~ (exists order : list nat,
                      Permutation order (seq 0 5) /\
                      StronglySorted (descending_earliest key) (rev order) /\
                      StronglySorted (ascending_earliest key) order)).
  { intros (order & Hp & Hd & Ha).
    assert (Hin : forall i, In i order -> In i (seq 0 5))
      by (intros i; apply (Permutation_in _ Hp)).
    assert (Hup : StronglySorted lt order).
    { apply (StronglySorted_weaken (ascending_earliest key)); [|exact Ha].
      intros x y Hx Hy [H|[_ H]]; [|exact H].
      rewrite (Hk x), (Hk y) in H by auto. now apply Qlt_irrefl in H. }
    assert (Hdown : StronglySorted lt (rev order)).
    { apply (StronglySorted_weaken (descending_earliest key)); [|exact Hd].
      intros x y Hx Hy [H|[_ H]]; [|exact H].
      apply in_rev in Hx. apply in_rev in Hy.
      rewrite (Hk x), (Hk y) in H by auto. now apply Qlt_irrefl in H. }
    pose proof (increasing_both_ways order Hup Hdown) as Hlen.
    rewrite (Permutation_length Hp) in Hlen. simpl in Hlen. lia. }
  split; [|exact Hno].
  eexists. split; [vm_compute; reflexivity|].
  intros [Hd Ha]. simpl in Hd, Ha.
  apply StronglySorted_inv in Hd as [_ Hd].
  apply Forall_inv in Hd. destruct Hd as [H|[_ H]]; [|lia].
  vm_compute in H. discriminate.
Qed.

(** C4 (amended).  In every ranking either ranker returns, the scores are the
    scores of the generated windows, the top-K list is in descending score
    order and the bottom-K list in ascending score order, and both list valid
    windows.  The lists are order[-top_n:][::-1] and order[:top_n] for one
    ascending arrangement of all the windows, the one np.argsort returns;
    the code fixes no order among windows of equal score, so no tie-break by
    earliest start index is guaranteed. *)
Theorem selections_are_ordered_by_score :
  (forall (trajectories : Json.trajectories) (L top_n : Z) (r : ranking),
      Json.find_best_episodes trajectories L top_n = Ok r ->
      ranked_by_score (fun s => sum_of_agent_means trajectories s L) top_n r) /\
  (forall (d : Npz.data) (L top_n : Z) (r : ranking),
      well_formed d ->
      Npz.find_best_episodes d L top_n = Ok r ->
      ranked_by_score (fun s => sum_of_rewards (Npz.rewards d) s L) top_n r).
Proof.
  split.
  - intros trajectories L top_n r H.
    destruct (json_shape _ _ _ _ H) as (starts & _ & _ & _ & ->).
    apply selection_by_score.
  - intros d L top_n r Hwf H.
    destruct (npz_shape _ _ _ _ Hwf H) as (starts & Hgen & _ & _ & ->).
    cbv zeta.
    replace (map (Npz.episode_reward d L) starts)
      with (map (fun s => sum_of_rewards (Npz.rewards d) s L) starts).
    + apply selection_by_score.
    + apply map_ext_in. intros s Hs. symmetry.
      rewrite npz_window_starts_eq, Hwf in Hgen.
      destruct (generated_starts_bounds _ _ _ s (len_nonneg _) Hgen Hs)
        as (HL & H0 & Hb).
      apply npz_episode_reward_spec; lia.
Qed.

Lemma selections_are_ordered_by_score_witness :
  (exists r, Json.find_best_episodes (Npz.rewards tied) 2 3 = Ok r /\
             ranked_by_score
               (fun s => sum_of_agent_means (Npz.rewards tied) s 2) 3 r) /\
  (exists r, Npz.find_best_episodes tied 2 3 = Ok r /\
             ranked_by_score (fun s => sum_of_rewards (Npz.rewards tied) s 2) 3 r).
Proof.
  split; eexists; (split; [vm_compute; reflexivity|]).
  - apply (proj1 selections_are_ordered_by_score (Npz.rewards tied) 2 3).
    vm_compute. reflexivity.
  - apply (proj2 selections_are_ordered_by_score tied 2 3).
    + reflexivity.
    + vm_compute. reflexivity.
Defined.

(* The three outcomes of both rankers on a well-formed archive. *)
Lemma ranker_outcome (d : Npz.data) (L top_n : Z) :
  well_formed d ->
  let T := Npz.n_timesteps d in
  (~ 2 <= L < T ->
   Json.find_best_episodes (Npz.rewards d) L top_n = Err ValueError /\
   Npz.find_best_episodes d L top_n = Err ValueError) /\
  (2 <= L < T -> selects (window_count T L) top_n ->
   (exists r, Json.find_best_episodes (Npz.rewards d) L top_n = Ok r) /\
   (exists r, Npz.find_best_episodes d L top_n = Ok r)) /\
  (2 <= L < T -> ~ selects (window_count T L) top_n ->
   Json.find_best_episodes (Npz.rewards d) L top_n = Err IndexError /\
   Npz.find_best_episodes d L top_n = Err IndexError).
Proof.
  intros Hwf T.
  assert (HT : 0 <= T) by (unfold T; rewrite Hwf; apply len_nonneg).
  assert (Hj : Json.window_starts (Npz.rewards d) L = generated_starts T L).
  { rewrite <- (well_formed_starts d L Hwf). reflexivity. }
  assert (Hz : Npz.window_starts d L = generated_starts T L) by reflexivity.
  split; [|split].
  - intros Hno.
    assert (Hd : generated_starts T L = Err ValueError \/ generated_starts T L = Ok []).
    { apply generated_starts_degenerate; lia. }
    split; [apply json_no_window | apply npz_no_window]; congruence.
  - intros HL Hsel.
    destruct (generated_starts_ok T L) as [starts Hgen]; [lia|].
    assert (Hne : starts <> []) by (apply (generated_starts_nonempty T L); auto).
    rewrite <- (generated_starts_length T L starts) in Hsel by (lia || assumption).
    split; eexists.
    + apply (json_returns _ _ _ starts); [congruence | exact Hne | exact Hsel].
    + apply (npz_returns _ _ _ starts); [assumption | congruence | exact Hne | exact Hsel].
  - intros HL Hsel.
    destruct (generated_starts_ok T L) as [starts Hgen]; [lia|].
    assert (Hne : starts <> []) by (apply (generated_starts_nonempty T L); auto).
    rewrite <- (generated_starts_length T L starts) in Hsel by (lia || assumption).
    split.
    + apply (json_index_error _ _ _ starts); [congruence | exact Hne | exact Hsel].
    + apply (npz_index_error _ _ _ starts); [assumption | congruence | exact Hne | exact Hsel].
Qed.

(** X4.  On a well-formed archive either ranker returns a ranking exactly
    when 2 <= L < T and top_n is positive or lies strictly between minus the
    number of windows and 0. *)
Theorem ranker_returns_iff :
  forall (d : Npz.data) (L top_n : Z),
    well_formed d ->
    ((exists r, Json.find_best_episodes (Npz.rewards d) L top_n = Ok r) <->
     2 <= L < Npz.n_timesteps d /\
     selects (window_count (Npz.n_timesteps d) L) top_n) /\
    ((exists r, Npz.find_best_episodes d L top_n = Ok r) <->
     2 <= L < Npz.n_timesteps d /\
     selects (window_count (Npz.n_timesteps d) L) top_n).
Proof.
  intros d L top_n Hwf.
  destruct (ranker_outcome d L top_n Hwf) as (Hv & Hok & Hi).
  assert (Hdec : 2 <= L < Npz.n_timesteps d \/ ~ 2 <= L < Npz.n_timesteps d) by lia.
  split; (split; [|intros [HL Hs]; now apply Hok]); intros [r Hr].
  - destruct Hdec as [HL|HL]; [|destruct (Hv HL) as [E _]; congruence].
    split; [exact HL|].
    destruct (selects_dec (window_count (Npz.n_timesteps d) L) top_n) as [Hs|Hs];
      [exact Hs | destruct (Hi HL Hs) as [E _]; congruence].
  - destruct Hdec as [HL|HL]; [|destruct (Hv HL) as [_ E]; congruence].
    split; [exact HL|].
    destruct (selects_dec (window_count (Npz.n_timesteps d) L) top_n) as [Hs|Hs];
      [exact Hs | destruct (Hi HL Hs) as [_ E]; congruence].
Qed.

Lemma ranker_returns_iff_witness :
  ((exists r, Json.find_best_episodes (Npz.rewards uneven) 2 (-3) = Ok r) <->
   2 <= 2 < Npz.n_timesteps uneven /\
   selects (window_count (Npz.n_timesteps uneven) 2) (-3)) /\
  ((exists r, Npz.find_best_episodes uneven 2 (-3) = Ok r) <->
   2 <= 2 < Npz.n_timesteps uneven /\
   selects (window_count (Npz.n_timesteps uneven) 2) (-3)).
Proof. apply (ranker_returns_iff uneven 2 (-3)). reflexivity. Defined.

(** X5.  When a ranker does not return, the exception tells why: ValueError
    when no window is generated (L <= 1 or T <= L), IndexError when windows
    exist but top_n selects no first best or no first worst window, which
    includes top_n = 0. *)
Theorem ranker_exception_kinds :
  forall (d : Npz.data) (L top_n : Z),
    well_formed d ->
    (L <= 1 \/ Npz.n_timesteps d <= L ->
     Json.find_best_episodes (Npz.rewards d) L top_n = Err ValueError /\
     Npz.find_best_episodes d L top_n = Err ValueError) /\
    (2 <= L < Npz.n_timesteps d ->
     top_n = 0 \/ top_n <= - window_count (Npz.n_timesteps d) L ->
     Json.find_best_episodes (Npz.rewards d) L top_n = Err IndexError /\
     Npz.find_best_episodes d L top_n = Err IndexError).
Proof.
  intros d L top_n Hwf.
  destruct (ranker_outcome d L top_n Hwf) as (Hv & _ & Hi).
  split.
  - intros H. apply Hv. lia.
  - intros HL H. apply Hi; [exact HL|].
    pose proof (window_count_pos (Npz.n_timesteps d) L) as Hpos.
    unfold selects. lia.
Qed.

Lemma ranker_exception_kinds_witness :
  (7 <= 1 \/ Npz.n_timesteps uneven <= 7 ->
   Json.find_best_episodes (Npz.rewards uneven) 7 0 = Err ValueError /\
   Npz.find_best_episodes uneven 7 0 = Err ValueError) /\
  (2 <= 7 < Npz.n_timesteps uneven ->
   0 = 0 \/ 0 <= - window_count (Npz.n_timesteps uneven) 7 ->
   Json.find_best_episodes (Npz.rewards uneven) 7 0 = Err IndexError /\
   Npz.find_best_episodes uneven 7 0 = Err IndexError).
Proof. apply (ranker_exception_kinds uneven 7 0). reflexivity. Defined.

(** ** What the selected windows are *)

Lemma argsort_NoDup (a : list Q) : NoDup (Np.argsort a).
Proof.
  apply (Permutation_NoDup (Permutation_sym (argsort_perm a))), seq_NoDup.
Qed.

Lemma NoDup_firstn {A : Type} (l : list A) (n : nat) : NoDup l -> NoDup (firstn n l).
Proof.
  intros H. rewrite <- (firstn_skipn n l) in H. now apply NoDup_app_remove_r in H.
Qed.

Lemma NoDup_skipn {A : Type} (l : list A) (n : nat) : NoDup l -> NoDup (skipn n l).
Proof.
  intros H. rewrite <- (firstn_skipn n l) in H. now apply NoDup_app_remove_l in H.
Qed.

Lemma selection_NoDup (a : list Q) (lo hi : Z) :
  NoDup (rev (Py.slice (Np.argsort a) (Some lo) None)) /\
  NoDup (Py.slice (Np.argsort a) None (Some hi)).
Proof.
  rewrite slice_from, slice_to. split.
  - apply NoDup_rev, NoDup_skipn, argsort_NoDup.
  - apply NoDup_firstn, argsort_NoDup.
Qed.

Lemma selection_sizes (a : list Q) (top_n : Z) :
  1 <= top_n ->
  Py.len (rev (Py.slice (Np.argsort a) (Some (- top_n)) None)) =
    Z.min top_n (Py.len a) /\
  Py.len (Py.slice (Np.argsort a) None (Some top_n)) = Z.min top_n (Py.len a).
Proof.
  intros Hk. rewrite slice_from, slice_to, argsort_len.
  pose proof (len_nonneg a) as Hn.
  unfold Py.len at 1 4.
  rewrite length_rev, length_skipn, length_firstn, argsort_length.
  unfold Py.clamp.
  destruct (Z.ltb_spec (- top_n) 0); [|lia].
  destruct (Z.ltb_spec top_n 0); [lia|].
  unfold Py.len in *. lia.
Qed.

Lemma selection_dominates (a : list Q) (lo hi : Z) :
  (forall i j, In i (rev (Py.slice (Np.argsort a) (Some lo) None)) ->
               (j < length a)%nat ->
               ~ In j (rev (Py.slice (Np.argsort a) (Some lo) None)) ->
               (score a j <= score a i)%Q) /\
  (forall i j, In i (Py.slice (Np.argsort a) None (Some hi)) ->
               (j < length a)%nat ->
               ~ In j (Py.slice (Np.argsort a) None (Some hi)) ->
               (score a i <= score a j)%Q).
Proof.
  rewrite slice_from, slice_to.
  pose proof (argsort_sorted a) as Hs.
  split; intros i j Hi Hj Hnot; apply argsort_In in Hj.
  - set (k := Z.to_nat _) in *.
    rewrite <- (firstn_skipn k (Np.argsort a)) in Hs, Hj.
    apply StronglySorted_app_inv in Hs as (_ & _ & H).
    apply in_rev in Hi.
    apply in_app_or in Hj as [Hj|Hj].
    + apply ascending_earliest_le, H; assumption.
    + exfalso. apply Hnot. now apply -> in_rev.
  - set (k := Z.to_nat _) in *.
    rewrite <- (firstn_skipn k (Np.argsort a)) in Hs, Hj.
    apply StronglySorted_app_inv in Hs as (_ & _ & H).
    apply in_app_or in Hj as [Hj|Hj]; [contradiction|].
    apply ascending_earliest_le, H; assumption.
Qed.

(** X6.  For top_n >= 1 a returned ranking lists min(top_n, number of
    windows) windows as best and as many as worst, each list without
    repetition. *)
Theorem selections_have_top_n_distinct_windows :
  (forall (trajectories : Json.trajectories) (L top_n : Z) (r : ranking),
      1 <= top_n ->
      Json.find_best_episodes trajectories L top_n = Ok r -> top_k_sized top_n r) /\
  (forall (d : Npz.data) (L top_n : Z) (r : ranking),
      well_formed d -> 1 <= top_n ->
      Npz.find_best_episodes d L top_n = Ok r -> top_k_sized top_n r).
Proof.
  split.
  - intros trajectories L top_n r Hk H.
    destruct (json_shape _ _ _ _ H) as (starts & _ & _ & _ & ->).
    unfold top_k_sized. simpl.
    set (a := map _ starts).
    assert (Py.len starts = Py.len a) as -> by (unfold Py.len, a; now rewrite length_map).
    destruct (selection_sizes a top_n Hk) as [H1 H2].
    destruct (selection_NoDup a (- top_n) top_n) as [H3 H4]. auto.
  - intros d L top_n r Hwf Hk H.
    destruct (npz_shape _ _ _ _ Hwf H) as (starts & _ & _ & _ & ->).
    unfold top_k_sized. simpl.
    set (a := map _ starts).
    assert (Py.len starts = Py.len a) as -> by (unfold Py.len, a; now rewrite length_map).
    destruct (selection_sizes a top_n Hk) as [H1 H2].
    destruct (selection_NoDup a (- top_n) top_n) as [H3 H4]. auto.
Qed.

Lemma selections_have_top_n_distinct_windows_witness :
  top_k_sized 9
    {| best_indices := [3; 2; 1; 0; 4]%nat; worst_indices := [4; 0; 1; 2; 3]%nat;
       episode_starts := [0; 1; 2; 3; 4];
       episode_rewards :=
         map (fun s => sum_of_agent_means (Npz.rewards uneven) s 2)
           [0; 1; 2; 3; 4] |} /\
  top_k_sized 2
    {| best_indices := [3; 2]%nat; worst_indices := [4; 0]%nat;
       episode_starts := [0; 1; 2; 3; 4];
       episode_rewards := map (Npz.episode_reward uneven 2) [0; 1; 2; 3; 4] |}.
Proof.
  split.
  - apply (proj1 selections_have_top_n_distinct_windows (Npz.rewards uneven) 2 9).
    + lia.
    + vm_compute. reflexivity.
  - apply (proj2 selections_have_top_n_distinct_windows uneven 2 2).
    + reflexivity.
    + lia.
    + vm_compute. reflexivity.
Defined.

(** X7.  In every returned ranking, whatever top_n, the best list is a true
    top selection and the worst list a true bottom selection: no window left
    out of the best list scores more than a listed one, and no window left
    out of the worst list scores less than a listed one. *)
Theorem selections_dominate_the_rest :
  (forall (trajectories : Json.trajectories) (L top_n : Z) (r : ranking),
      Json.find_best_episodes trajectories L top_n = Ok r -> dominates r) /\
  (forall (d : Npz.data) (L top_n : Z) (r : ranking),
      well_formed d ->
      Npz.find_best_episodes d L top_n = Ok r -> dominates r).
Proof.
  split.
  - intros trajectories L top_n r H.
    destruct (json_shape _ _ _ _ H) as (starts & _ & _ & _ & ->).
    apply selection_dominates.
  - intros d L top_n r Hwf H.
    destruct (npz_shape _ _ _ _ Hwf H) as (starts & _ & _ & _ & ->).
    apply selection_dominates.
Qed.

Lemma selections_dominate_the_rest_witness :
  dominates
    {| best_indices := [3; 2; 1; 0]%nat; worst_indices := [4; 0; 1; 2]%nat;
       episode_starts := [0; 1; 2; 3; 4];
       episode_rewards :=
         map (fun s => sum_of_agent_means (Npz.rewards uneven) s 2)
           [0; 1; 2; 3; 4] |} /\
  dominates
    {| best_indices := [3; 2]%nat; worst_indices := [4; 0]%nat;
       episode_starts := [0; 1; 2; 3; 4];
       episode_rewards := map (Npz.episode_reward uneven 2) [0; 1; 2; 3; 4] |}.
Proof.
  split.
  - apply (proj1 selections_dominate_the_rest (Npz.rewards uneven) 2 (-1)).
    vm_compute. reflexivity.
  - apply (proj2 selections_dominate_the_rest uneven 2 2).
    + reflexivity.
    + vm_compute. reflexivity.
Defined.

(** ** The exported episodes *)

Lemma window_range_nth (s L : Z) (k : nat) :
  (k < Z.to_nat L)%nat -> nth k (window_range s L) 0 = s + Z.of_nat k.
Proof.
  intros Hk. unfold window_range.
  rewrite (nth_map_in _ _ _ O) by (now rewrite length_seq).
  now rewrite seq_nth.
Qed.

Lemma window_rows_length (rewards : list (list Q)) (s L : Z) :
  length (window_rows rewards s L) = Z.to_nat L.
Proof. unfold window_rows. now rewrite length_map, window_range_length. Qed.

Lemma window_steps_length (rewards : list (list Q)) (s L : Z) :
  length (window_steps rewards s L) = Z.to_nat L.
Proof. unfold window_steps. now rewrite length_map, window_range_length. Qed.

Lemma window_steps_rows (rewards : list (list Q)) (s L : Z) :
  map step_rew (window_steps rewards s L) = window_rows rewards s L.
Proof. unfold window_steps, window_rows. now rewrite map_map. Qed.

Lemma window_steps_times (rewards : list (list Q)) (s L : Z) :
  map step_t (window_steps rewards s L) = window_range 0 L.
Proof.
  unfold window_steps, window_range. rewrite !map_map.
  apply map_ext. intros k. simpl. lia.
Qed.

(* Scoring the exported rows as one window from 0 gives the window's score. *)
Lemma rescore_window_rows (rewards : list (list Q)) (s L : Z) :
  sum_of_agent_means (window_rows rewards s L) 0 L = sum_of_agent_means rewards s L.
Proof.
  unfold sum_of_agent_means. f_equal.
  unfold window_range. rewrite !map_map.
  apply map_ext_in. intros k Hk. apply in_seq in Hk. f_equal.
  replace (Z.to_nat (0 + Z.of_nat k)) with k by lia.
  unfold window_rows.
  rewrite (nth_map_in _ _ _ 0) by (rewrite window_range_length; lia).
  rewrite window_range_nth by lia. reflexivity.
Qed.

Lemma export_steps_spec (d : Npz.data) (s L : Z) :
  0 <= s -> s + L <= Py.len (Npz.rewards d) ->
  NpzFiles.export_steps d s (s + L) = Ok (window_steps (Npz.rewards d) s L).
Proof.
  intros Hs Hb. unfold NpzFiles.export_steps.
  rewrite range_unit_step, bind_ok.
  apply mapM_ok. intros t Ht. apply window_range_In in Ht.
  rewrite (getitem_in_bounds _ _ []) by lia. reflexivity.
Qed.

Lemma json_episode_file_spec (trajectories : Json.trajectories) (L : Z)
  (starts : list Z) (i0 : nat) (rest : list nat) (r : ranking) :
  Json.window_starts trajectories L = Ok starts ->
  episode_starts r = starts ->
  episode_rewards r = map (fun s => sum_of_agent_means trajectories s L) starts ->
  (i0 < length starts)%nat ->
  exists f, JsonFiles.episode_file (i0 :: rest) trajectories L r = Ok f /\
            JsonFiles.original_start_step f = nth i0 starts 0 /\
            json_file_of_window trajectories L starts f.
Proof.
  intros Hgen Hst Hrw Hi. unfold JsonFiles.episode_file.
  rewrite getitem_first, bind_ok, Hst, Hrw.
  rewrite (getitem_in_bounds starts _ 0) by (unfold Py.len; lia).
  rewrite (getitem_in_bounds _ _ 0%Q) by (unfold Py.len; rewrite length_map; lia).
  rewrite !bind_ok, Nat2Z.id.
  set (s := nth i0 starts 0).
  assert (Hin : In s starts) by (now apply nth_In).
  rewrite json_window_starts_eq in Hgen.
  destruct (generated_starts_bounds _ _ _ s (len_nonneg _) Hgen Hin)
    as (HL & H0 & Hb).
  rewrite Z.min_l by lia.
  rewrite (slice_window _ _ _ []) by lia.
  fold (window_rows trajectories s L).
  rewrite (nth_map_in _ _ _ 0) by assumption. fold s.
  eexists. split; [reflexivity|]. split; [reflexivity|].
  unfold json_file_of_window. simpl.
  repeat split; try assumption.
  - unfold Py.len. rewrite window_rows_length. lia.
  - symmetry. apply rescore_window_rows.
Qed.

Lemma npz_episode_file_spec (d : Npz.data) (L : Z)
  (starts : list Z) (i0 : nat) (rest : list nat) (r : ranking) :
  well_formed d ->
  Npz.window_starts d L = Ok starts ->
  episode_starts r = starts ->
  episode_rewards r = map (Npz.episode_reward d L) starts ->
  (i0 < length starts)%nat ->
  exists f, NpzFiles.episode_file (i0 :: rest) d L r = Ok f /\
            NpzFiles.original_start_step f = nth i0 starts 0 /\
            NpzFiles.cumulative_reward f = Npz.episode_reward d L (nth i0 starts 0) /\
            npz_file_of_window d L starts f.
Proof.
  intros Hwf Hgen Hst Hrw Hi. unfold NpzFiles.episode_file.
  rewrite getitem_first, bind_ok, Hst, Hrw.
  rewrite (getitem_in_bounds starts _ 0) by (unfold Py.len; lia).
  rewrite (getitem_in_bounds _ _ 0%Q) by (unfold Py.len; rewrite length_map; lia).
  rewrite !bind_ok, Nat2Z.id.
  set (s := nth i0 starts 0).
  assert (Hin : In s starts) by (now apply nth_In).
  rewrite npz_window_starts_eq, Hwf in Hgen.
  destruct (generated_starts_bounds _ _ _ s (len_nonneg _) Hgen Hin)
    as (HL & H0 & Hb).
  rewrite export_steps_spec by lia.
  rewrite !bind_ok.
  rewrite (nth_map_in _ _ _ 0) by assumption. fold s.
  eexists. split; [reflexivity|]. split; [reflexivity|]. split; [reflexivity|].
  unfold npz_file_of_window. simpl.
  repeat split; try assumption.
  - unfold Py.len. rewrite window_steps_length. lia.
  - apply window_steps_times.
  - rewrite window_steps_rows. unfold Npz.episode_reward.
    rewrite (slice_window _ _ _ []) by lia. reflexivity.
Qed.

(** X9.  Whenever the JSON ranker returns, whatever top_n, the two episode
    files it builds exist and each holds one generated window: exactly L
    timesteps, copied from the trajectory at the recorded start, with bounds
    start and start + L and with a cumulative reward equal to the score of
    the exported timesteps.  The best file holds a window of maximal score and
    the worst file a window of minimal score among all generated windows. *)
Theorem json_episode_files_hold_the_extreme_windows :
  forall (trajectories : Json.trajectories) (L top_n : Z) (r : ranking),
    Json.find_best_episodes trajectories L top_n = Ok r ->
    exists fb fw,
      JsonFiles.best_episode_data trajectories L r = Ok fb /\
      JsonFiles.worst_episode_data trajectories L r = Ok fw /\
      json_file_of_window trajectories L (episode_starts r) fb /\
      json_file_of_window trajectories L (episode_starts r) fw /\
      forall s, In s (episode_starts r) ->
        (sum_of_agent_means trajectories s L <= JsonFiles.cumulative_reward fb)%Q /\
        (JsonFiles.cumulative_reward fw <= sum_of_agent_means trajectories s L)%Q.
Proof.
  intros trajectories L top_n r H.
  destruct (json_shape _ _ _ _ H) as (starts & Hgen & Hne & Hsel & Hr).
  cbv zeta in Hr. set (a := map _ starts) in Hr.
  assert (Hlen : length a = length starts) by apply length_map.
  assert (Ha : a <> []).
  { intros E. rewrite E in Hlen. destruct starts; [congruence|discriminate]. }
  pose proof (argsort_nonempty a Ha) as Ho.
  assert (Hn : Py.len (Np.argsort a) = Py.len starts).
  { rewrite argsort_len. unfold Py.len. now rewrite Hlen. }
  destruct (best_head (Np.argsort a) top_n Ho) as [rb Eb];
    [rewrite Hn; unfold selects in Hsel; lia|].
  destruct (worst_head (Np.argsort a) top_n Ho) as [rw Ew];
    [rewrite Hn; exact Hsel|].
  assert (Hb : (last (Np.argsort a) O < length starts)%nat)
    by (rewrite <- Hlen; apply argsort_In, last_In, Ho).
  assert (Hw : (hd O (Np.argsort a) < length starts)%nat)
    by (rewrite <- Hlen; apply argsort_In, hd_In, Ho).
  assert (Hst : episode_starts r = starts) by (rewrite Hr; reflexivity).
  assert (Hrw : episode_rewards r = a) by (rewrite Hr; reflexivity).
  destruct (json_episode_file_spec trajectories L starts _ rb r Hgen Hst Hrw Hb)
    as (fb & Hfb & Hsb & Hwb).
  destruct (json_episode_file_spec trajectories L starts _ rw r Hgen Hst Hrw Hw)
    as (fw & Hfw & Hsw & Hww).
  exists fb, fw. rewrite Hst.
  split; [|split; [|split; [exact Hwb | split; [exact Hww|]]]].
  - unfold JsonFiles.best_episode_data.
    replace (best_indices r) with (last (Np.argsort a) O :: rb)
      by (rewrite Hr; simpl; now rewrite Eb).
    exact Hfb.
  - unfold JsonFiles.worst_episode_data.
    replace (worst_indices r) with (hd O (Np.argsort a) :: rw)
      by (rewrite Hr; simpl; now rewrite Ew).
    exact Hfw.
  - intros s Hs.
    destruct Hwb as (_ & _ & _ & _ & _ & -> & _).
    destruct Hww as (_ & _ & _ & _ & _ & -> & _).
    rewrite Hsb, Hsw.
    destruct (@scores_of_starts (fun s => sum_of_agent_means trajectories s L)
                starts s Hs) as (i & Hi & <-).
    fold a.
    rewrite <- (nth_map_in (fun s => sum_of_agent_means trajectories s L)
                  starts _ 0 0%Q Hb).
    rewrite <- (nth_map_in (fun s => sum_of_agent_means trajectories s L)
                  starts _ 0 0%Q Hw).
    fold a. split.
    + apply argsort_last_max; [assumption | lia].
    + apply argsort_head_min; [assumption | lia].
Qed.

Lemma json_episode_files_hold_the_extreme_windows_witness :
  let trajectories := Npz.rewards uneven in
  let r := {| best_indices := [3; 2; 1; 0]%nat; worst_indices := [4; 0; 1; 2]%nat;
              episode_starts := [0; 1; 2; 3; 4];
              episode_rewards :=
                map (fun s => sum_of_agent_means trajectories s 2)
                  [0; 1; 2; 3; 4] |} in
  exists fb fw,
    JsonFiles.best_episode_data trajectories 2 r = Ok fb /\
    JsonFiles.worst_episode_data trajectories 2 r = Ok fw /\
    json_file_of_window trajectories 2 (episode_starts r) fb /\
    json_file_of_window trajectories 2 (episode_starts r) fw /\
    forall s, In s (episode_starts r) ->
      (sum_of_agent_means trajectories s 2 <= JsonFiles.cumulative_reward fb)%Q /\
      (JsonFiles.cumulative_reward fw <= sum_of_agent_means trajectories s 2)%Q.
Proof.
  apply (json_episode_files_hold_the_extreme_windows (Npz.rewards uneven) 2 (-1)).
  vm_compute. reflexivity.
Defined.

(** X10.  Whenever the NPZ ranker returns on a well-formed archive, whatever
    top_n, the two episode files it builds exist and each holds one generated
    window: L steps numbered 0 to L - 1 carrying the window's reward rows, a
    declared n_timesteps equal to the number of exported steps, and a
    cumulative reward equal to the sum of all exported rewards.  The best
    file holds a window of maximal score and the worst file a window of
    minimal score among all generated windows. *)
Theorem npz_episode_files_hold_the_extreme_windows :
  forall (d : Npz.data) (L top_n : Z) (r : ranking),
    well_formed d ->
    Npz.find_best_episodes d L top_n = Ok r ->
    exists fb fw,
      NpzFiles.best_episode_data d L r = Ok fb /\
      NpzFiles.worst_episode_data d L r = Ok fw /\
      npz_file_of_window d L (episode_starts r) fb /\
      npz_file_of_window d L (episode_starts r) fw /\
      forall s, In s (episode_starts r) ->
        (Npz.episode_reward d L s <= NpzFiles.cumulative_reward fb)%Q /\
        (NpzFiles.cumulative_reward fw <= Npz.episode_reward d L s)%Q.
Proof.
  intros d L top_n r Hwf H.
  destruct (npz_shape _ _ _ _ Hwf H) as (starts & Hgen & Hne & Hsel & Hr).
  cbv zeta in Hr. set (a := map _ starts) in Hr.
  assert (Hlen : length a = length starts) by apply length_map.
  assert (Ha : a <> []).
  { intros E. rewrite E in Hlen. destruct starts; [congruence|discriminate]. }
  pose proof (argsort_nonempty a Ha) as Ho.
  assert (Hn : Py.len (Np.argsort a) = Py.len starts).
  { rewrite argsort_len. unfold Py.len. now rewrite Hlen. }
  destruct (best_head (Np.argsort a) top_n Ho) as [rb Eb];
    [rewrite Hn; unfold selects in Hsel; lia|].
  destruct (worst_head (Np.argsort a) top_n Ho) as [rw Ew];
    [rewrite Hn; exact Hsel|].
  assert (Hb : (last (Np.argsort a) O < length starts)%nat)
    by (rewrite <- Hlen; apply argsort_In, last_In, Ho).
  assert (Hw : (hd O (Np.argsort a) < length starts)%nat)
    by (rewrite <- Hlen; apply argsort_In, hd_In, Ho).
  assert (Hst : episode_starts r = starts) by (rewrite Hr; reflexivity).
  assert (Hrw : episode_rewards r = a) by (rewrite Hr; reflexivity).
  destruct (npz_episode_file_spec d L starts _ rb r Hwf Hgen Hst Hrw Hb)
    as (fb & Hfb & Hsb & Hcb & Hwb).
  destruct (npz_episode_file_spec d L starts _ rw r Hwf Hgen Hst Hrw Hw)
    as (fw & Hfw & Hsw & Hcw & Hww).
  exists fb, fw. rewrite Hst.
  split; [|split; [|split; [exact Hwb | split; [exact Hww|]]]].
  - unfold NpzFiles.best_episode_data.
    replace (best_indices r) with (last (Np.argsort a) O :: rb)
      by (rewrite Hr; simpl; now rewrite Eb).
    exact Hfb.
  - unfold NpzFiles.worst_episode_data.
    replace (worst_indices r) with (hd O (Np.argsort a) :: rw)
      by (rewrite Hr; simpl; now rewrite Ew).
    exact Hfw.
  - intros s Hs. rewrite Hcb, Hcw.
    destruct (@scores_of_starts (Npz.episode_reward d L) starts s Hs)
      as (i & Hi & <-).
    fold a.
    rewrite <- (nth_map_in (Npz.episode_reward d L) starts _ 0 0%Q Hb).
    rewrite <- (nth_map_in (Npz.episode_reward d L) starts _ 0 0%Q Hw).
    fold a. split.
    + apply argsort_last_max; [assumption | lia].
    + apply argsort_head_min; [assumption | lia].
Qed.

Lemma npz_episode_files_hold_the_extreme_windows_witness :
  let r := {| best_indices := [3; 2]%nat; worst_indices := [4; 0]%nat;
              episode_starts := [0; 1; 2; 3; 4];
              episode_rewards := map (Npz.episode_reward uneven 2) [0; 1; 2; 3; 4] |} in
  exists fb fw,
    NpzFiles.best_episode_data uneven 2 r = Ok fb /\
    NpzFiles.worst_episode_data uneven 2 r = Ok fw /\
    npz_file_of_window uneven 2 (episode_starts r) fb /\
    npz_file_of_window uneven 2 (episode_starts r) fw /\
    forall s, In s (episode_starts r) ->
      (Npz.episode_reward uneven 2 s <= NpzFiles.cumulative_reward fb)%Q /\
      (NpzFiles.cumulative_reward fw <= Npz.episode_reward uneven 2 s)%Q.
Proof.
  apply (npz_episode_files_hold_the_extreme_windows uneven 2 2).
  - reflexivity.
  - vm_compute. reflexivity.
Defined.

(** ** The segments of the progression script *)

Lemma range_from_zero (n : Z) : Py.range 0 n 1 = Ok (window_range 0 n).
Proof. rewrite <- (range_unit_step 0 n). reflexivity. Qed.

Lemma sample_starts_spec (T k L : Z) :
  k <> 1 -> Videos.sample_starts T k L = Videos.Done (evenly_spaced T k L).
Proof.
  intros Hk. unfold Videos.sample_starts, Videos.step_size, Py.floordiv.
  destruct (Z.eqb_spec (k - 1) 0); [lia|].
  rewrite range_from_zero. reflexivity.
Qed.

Lemma evenly_spaced_bounds (T k L s : Z) :
  2 <= k -> 0 <= L <= T -> In s (evenly_spaced T k L) -> 0 <= s <= T - L.
Proof.
  intros Hk HL Hin. unfold evenly_spaced in Hin.
  apply in_app_or in Hin as [Hin|[<-|[]]]; [|lia].
  apply in_map_iff in Hin as [i [<- Hi]]. apply window_range_In in Hi.
  pose proof (Z.mul_div_le (T - L) (k - 1) ltac:(lia)).
  assert (0 <= (T - L) / (k - 1)) by (apply Z.div_pos; lia).
  nia.
Qed.

Lemma evenly_spaced_single (T k L : Z) :
  k <= 0 -> evenly_spaced T k L = [T - L].
Proof.
  intros Hk. unfold evenly_spaced, window_range.
  replace (Z.to_nat (k - 1)) with O by lia. reflexivity.
Qed.

Lemma evenly_spaced_length (T k L : Z) :
  1 <= k -> Py.len (evenly_spaced T k L) = k.
Proof.
  intros Hk. unfold evenly_spaced, Py.len.
  rewrite length_app, length_map, window_range_length. simpl. lia.
Qed.

(* One turn of the export loop on an in-bounds window. *)
Lemma segment_spec (d : Npz.data) (L s : Z) :
  0 <= L -> 0 <= s -> s + L <= Py.len (Npz.rewards d) ->
  exists g, Videos.segment d L s = Ok g /\
            Videos.original_start_step g = s /\ segment_of_window d L g.
Proof.
  intros HL Hs Hb. unfold Videos.segment.
  rewrite export_steps_spec by assumption. rewrite bind_ok.
  eexists. split; [reflexivity|]. split; [reflexivity|].
  unfold segment_of_window. simpl.
  repeat split; try assumption.
  - unfold Py.len. rewrite window_steps_length. lia.
  - apply window_steps_times.
  - rewrite window_steps_rows. unfold Progression.segment_reward.
    rewrite (slice_window _ _ _ []) by assumption. reflexivity.
Qed.

Lemma segments_spec (d : Npz.data) (L : Z) (starts : list Z) :
  0 <= L ->
  (forall s, In s starts -> 0 <= s /\ s + L <= Py.len (Npz.rewards d)) ->
  exists segs, mapM (Videos.segment d L) starts = Ok segs /\
               map Videos.original_start_step segs = starts /\
               Forall (segment_of_window d L) segs.
Proof.
  intros HL. induction starts as [|s r IH]; intros Hb; simpl.
  - exists []. repeat split. constructor.
  - destruct (Hb s (or_introl eq_refl)) as [H0 Hs].
    destruct (segment_spec d L s HL H0 Hs) as (g & -> & Hg & Hw).
    destruct IH as (segs & -> & Hsegs & Hall); [intros x Hx; apply Hb; now right|].
    rewrite !bind_ok. exists (g :: segs). simpl.
    split; [reflexivity|]. split; [now rewrite Hg, Hsegs|]. now constructor.
Qed.

(** X11.  On a well-formed archive with 0 <= L <= T and num_videos >= 2 the
    progression script builds exactly num_videos segments, at the starts
    i * ((T - L) // (num_videos - 1)) for i < num_videos - 1 followed by
    T - L.  Every segment lies inside the trajectory and holds L steps
    numbered from 0 with the window's reward rows, declares n_timesteps = L,
    and stores as cumulative reward the sum of the exported rewards. *)
Theorem progression_segments_are_in_bounds_windows :
  forall (d : Npz.data) (num_videos L : Z),
    well_formed d -> 2 <= num_videos -> 0 <= L <= Npz.n_timesteps d ->
    exists segs,
      Videos.create_progression_videos d num_videos L = Videos.Done segs /\
      Py.len segs = num_videos /\
      map Videos.original_start_step segs =
        evenly_spaced (Npz.n_timesteps d) num_videos L /\
      Forall (segment_of_window d L) segs.
Proof.
  intros d k L Hwf Hk HL. unfold Videos.create_progression_videos.
  rewrite sample_starts_spec by lia.
  destruct (segments_spec d L (evenly_spaced (Npz.n_timesteps d) k L))
    as (segs & -> & Hst & Hall); [lia | |].
  - intros s Hs. apply evenly_spaced_bounds in Hs; [|lia|lia].
    rewrite <- Hwf. lia.
  - exists segs. split; [reflexivity|]. split; [|split; assumption].
    rewrite <- (evenly_spaced_length (Npz.n_timesteps d) k L) by lia.
    rewrite <- Hst. unfold Py.len. now rewrite length_map.
Qed.

Lemma progression_segments_are_in_bounds_windows_witness :
  exists segs,
    Videos.create_progression_videos uneven 3 2 = Videos.Done segs /\
    Py.len segs = 3 /\
    map Videos.original_start_step segs =
      evenly_spaced (Npz.n_timesteps uneven) 3 2 /\
    Forall (segment_of_window uneven 2) segs.
Proof.
  apply (progression_segments_are_in_bounds_windows uneven 3 2).
  - reflexivity.
  - lia.
  - simpl. lia.
Defined.

(** X12.  Asking the progression script for exactly one video always fails
    with ZeroDivisionError, since the step is a division by num_videos - 1;
    asking for zero or a negative number of videos on a well-formed archive
    with 0 <= L <= T still builds one segment, the window [T - L, T). *)
Theorem progression_edge_numbers_of_videos :
  forall (d : Npz.data) (num_videos L : Z),
    well_formed d -> num_videos <= 1 -> 0 <= L <= Npz.n_timesteps d ->
    (num_videos = 1 ->
     Videos.create_progression_videos d num_videos L = Videos.ZeroDivisionError) /\
    (num_videos <= 0 ->
     exists g,
       Videos.create_progression_videos d num_videos L = Videos.Done [g] /\
       Videos.original_start_step g = Npz.n_timesteps d - L /\
       Videos.segment_end g = Npz.n_timesteps d /\
       segment_of_window d L g).
Proof.
  intros d k L Hwf Hk HL. split.
  - intros ->. reflexivity.
  - intros Hk0. unfold Videos.create_progression_videos.
    rewrite sample_starts_spec, evenly_spaced_single by lia.
    destruct (segment_spec d L (Npz.n_timesteps d - L)) as (g & Hg & Hs & Hw);
      [lia | lia | rewrite <- Hwf; lia |].
    simpl. rewrite Hg, !bind_ok. exists g.
    split; [reflexivity|]. split; [exact Hs|]. split; [|exact Hw].
    destruct Hw as (_ & -> & _). rewrite Hs. lia.
Qed.

Lemma progression_edge_numbers_of_videos_witness :
  (0 = 1 ->
   Videos.create_progression_videos uneven 0 2 = Videos.ZeroDivisionError) /\
  (0 <= 0 ->
   exists g,
     Videos.create_progression_videos uneven 0 2 = Videos.Done [g] /\
     Videos.original_start_step g = Npz.n_timesteps uneven - 2 /\
     Videos.segment_end g = Npz.n_timesteps uneven /\
     segment_of_window uneven 2 g).
Proof.
  apply (progression_edge_numbers_of_videos uneven 0 2).
  - reflexivity.
  - lia.
  - simpl. lia.
Defined.

Lemma window_range_cons (s n : Z) :
  1 <= n -> window_range s n = s :: window_range (s + 1) (n - 1).
Proof.
  intros Hn. unfold window_range.
  replace (Z.to_nat n) with (S (Z.to_nat (n - 1))) by lia.
  simpl. f_equal; [lia|].
  rewrite <- seq_shift, map_map. apply map_ext. intros k. lia.
Qed.

Lemma map_seq_sorted {A : Type} (R : A -> A -> Prop) (g : nat -> A) (a n : nat) :
  (forall i j, (a <= i < j)%nat -> (j < a + n)%nat -> R (g i) (g j)) ->
  StronglySorted R (map g (seq a n)).
Proof.
  revert a; induction n as [|n IH]; intros a H; simpl; constructor.
  - apply IH. intros i j Hij Hj. apply H; lia.
  - apply Forall_forall. intros x Hx.
    apply in_map_iff in Hx as [j [<- Hj]]. apply in_seq in Hj. apply H; lia.
Qed.

Lemma evenly_spaced_sorted (R : Z -> Z -> Prop) (T k L : Z) :
  (forall i j, 0 <= i < j -> j < k - 1 ->
               R (i * ((T - L) / (k - 1))) (j * ((T - L) / (k - 1)))) ->
  (forall i, 0 <= i < k - 1 -> R (i * ((T - L) / (k - 1))) (T - L)) ->
  StronglySorted R (evenly_spaced T k L).
Proof.
  intros Hin Hlast. unfold evenly_spaced, window_range. rewrite map_map.
  apply StronglySorted_app.
  - apply map_seq_sorted. intros i j Hij Hj. apply Hin; lia.
  - repeat constructor.
  - intros x y Hx [<-|[]].
    apply in_map_iff in Hx as [i [<- Hi]]. apply in_seq in Hi. apply Hlast. lia.
Qed.

(** X13.  For num_videos >= 2 and 0 <= L <= T the sample starts of the
    progression script begin at 0, end at T - L, so that the last segment
    ends at the last timestep, and never decrease.  The segments are pairwise
    disjoint exactly when the window length does not exceed the step
    (T - L) // (num_videos - 1). *)
Theorem progression_starts_span_the_trajectory :
  forall (T num_videos L : Z),
    2 <= num_videos -> 0 <= L <= T ->
    let starts := evenly_spaced T num_videos L in
    Videos.sample_starts T num_videos L = Videos.Done starts /\
    hd 0 starts = 0 /\ last starts 0 + L = T /\
    StronglySorted Z.le starts /\
    (StronglySorted (apart L) starts <-> L <= (T - L) / (num_videos - 1)).
Proof.
  intros T k L Hk HL starts.
  assert (Hstep : 0 <= (T - L) / (k - 1)) by (apply Z.div_pos; lia).
  pose proof (Z.mul_div_le (T - L) (k - 1) ltac:(lia)) as Hle.
  assert (Hexp : starts = 0 :: map (fun i => i * ((T - L) / (k - 1)))
                                 (window_range 1 (k - 2)) ++ [T - L]).
  { unfold starts, evenly_spaced. rewrite window_range_cons by lia.
    replace (k - 1 - 1) with (k - 2) by lia. reflexivity. }
  split; [apply sample_starts_spec; lia|].
  split; [now rewrite Hexp|].
  split; [unfold starts, evenly_spaced; rewrite last_last; lia|].
  split; [apply evenly_spaced_sorted; intros; nia|].
  split.
  - intros Hs. rewrite Hexp in Hs. apply StronglySorted_inv in Hs as [_ Hs].
    rewrite Forall_forall in Hs. unfold apart in Hs.
    destruct (Z.eq_dec k 2) as [->|Hk2].
    + specialize (Hs (T - L)). simpl in Hs.
      rewrite Z.div_1_r. specialize (Hs (or_introl eq_refl)). lia.
    + specialize (Hs (1 * ((T - L) / (k - 1)))).
      assert (0 + L <= 1 * ((T - L) / (k - 1))); [|lia].
      apply Hs, in_or_app. left.
      apply in_map_iff. exists 1. split; [reflexivity|].
      apply window_range_In. lia.
  - intros Hd. apply evenly_spaced_sorted; unfold apart; intros; nia.
Qed.

Lemma progression_starts_span_the_trajectory_witness :
  let starts := evenly_spaced 10 4 2 in
  Videos.sample_starts 10 4 2 = Videos.Done starts /\
  hd 0 starts = 0 /\ last starts 0 + 2 = 10 /\
  StronglySorted Z.le starts /\
  (StronglySorted (apart 2) starts <-> 2 <= (10 - 2) / (4 - 1)).
Proof. apply (progression_starts_span_the_trajectory 10 4 2); lia. Defined.

Lemma getitem_error {A : Type} (l : list A) (i : Z) (e : exn) :
  Py.getitem l i = Err e -> e = IndexError.
Proof.
  unfold Py.getitem. destruct (_ && _); [|congruence].
  destruct (nth_error _ _); congruence.
Qed.

Lemma getitem_beyond {A : Type} (l : list A) (i : Z) :
  Py.len l <= i -> Py.getitem l i = Err IndexError.
Proof.
  intros H. pose proof (len_nonneg l). unfold Py.getitem.
  destruct (Z.ltb_spec i 0); [lia|].
  destruct (Z.ltb_spec i (Py.len l)); [lia|].
  now rewrite andb_false_r.
Qed.

Lemma mapM_error {A B : Type} (f : A -> result B) (l : list A) (e0 : exn) :
  (forall x e, In x l -> f x = Err e -> e = e0) ->
  (exists x, In x l /\ f x = Err e0) ->
  mapM f l = Err e0.
Proof.
  induction l as [|x l IH]; intros Hall [y [Hy Ey]]; [destruct Hy|].
  simpl. destruct (f x) as [b|e] eqn:E.
  - rewrite bind_ok, IH.
    + reflexivity.
    + intros z e Hz. apply Hall. now right.
    + destruct Hy as [->|Hy]; [congruence|]. eauto.
  - simpl. f_equal. apply (Hall x); [now left | assumption].
Qed.

Lemma export_steps_beyond (d : Npz.data) (L : Z) :
  Py.len (Npz.rewards d) < L ->
  NpzFiles.export_steps d 0 (0 + L) = Err IndexError.
Proof.
  intros HL. pose proof (len_nonneg (Npz.rewards d)) as Hn.
  unfold NpzFiles.export_steps. rewrite range_unit_step, bind_ok.
  apply mapM_error.
  - intros t e _ H. destruct (Py.getitem (Npz.rewards d) t) eqn:E;
      [discriminate|].
    simpl in H. apply getitem_error in E. congruence.
  - exists (Py.len (Npz.rewards d)). split; [apply window_range_In; lia|].
    now rewrite getitem_beyond by lia.
Qed.

(** X14.  With a window longer than the trajectory and num_videos >= 2 the
    progression script builds no segment on a well-formed archive: the export
    loop of the first segment, which starts at 0, runs past the last timestep
    and raises IndexError. *)
Theorem progression_longer_window_raises :
  forall (d : Npz.data) (num_videos L : Z),
    well_formed d -> 2 <= num_videos -> Npz.n_timesteps d < L ->
    Videos.create_progression_videos d num_videos L = Videos.Raised IndexError.
Proof.
  intros d k L Hwf Hk HL. unfold Videos.create_progression_videos.
  rewrite sample_starts_spec by lia.
  unfold evenly_spaced. rewrite window_range_cons by lia.
  simpl map. simpl app. simpl mapM.
  unfold Videos.segment at 1.
  rewrite export_steps_beyond by (rewrite <- Hwf; exact HL).
  reflexivity.
Qed.

Lemma progression_longer_window_raises_witness :
  Videos.create_progression_videos uneven 3 9 = Videos.Raised IndexError.
Proof.
  apply (progression_longer_window_raises uneven 3 9).
  - reflexivity.
  - lia.
  - simpl. lia.
Defined.

(** ** Replaying an exported episode *)

Lemma replayed_spec (trajectories : list step) (num_steps : Z) :
  Recorder.replayed trajectories num_steps =
  Ok (firstn (Z.to_nat num_steps) trajectories).
Proof.
  unfold Recorder.replayed. rewrite range_from_zero, bind_ok.
  set (m := Z.min num_steps (Py.len trajectories)).
  set (d := {| step_t := 0; step_rew := [] |}).
  rewrite (mapM_ok _ (fun t => nth (Z.to_nat t) trajectories d)).
  - f_equal. unfold window_range. rewrite map_map.
    assert (Hm : (0 + Z.to_nat m <= length trajectories)%nat)
      by (unfold m, Py.len; lia).
    pose proof (firstn_skipn_nth trajectories 0 (Z.to_nat m) d Hm) as E.
    simpl skipn in E.
    replace (map (fun k => nth (Z.to_nat (0 + Z.of_nat k)) trajectories d)
               (seq 0 (Z.to_nat m)))
      with (firstn (Z.to_nat m) trajectories).
    + destruct (Z_le_gt_dec num_steps (Py.len trajectories)).
      * unfold m. now rewrite Z.min_l by lia.
      * unfold m. rewrite Z.min_r by lia.
        unfold Py.len in *. rewrite Nat2Z.id, firstn_all.
        symmetry. apply firstn_all2. lia.
    + rewrite E. apply map_ext. intros k. f_equal. lia.
  - intros t Ht. apply window_range_In in Ht.
    apply getitem_in_bounds. unfold m in Ht. lia.
Qed.

(** X15.  The replay loop of the recorder never indexes outside the exported
    trajectory: for every num_steps, negative ones included, it reads exactly
    the first num_steps steps in order, and all of them when num_steps is at
    least the number of exported steps. *)
Theorem recorder_replays_a_prefix :
  forall (trajectories : list step) (num_steps : Z),
    Recorder.replayed trajectories num_steps =
      Ok (firstn (Z.to_nat num_steps) trajectories) /\
    (Py.len trajectories <= num_steps ->
     Recorder.replayed trajectories num_steps = Ok trajectories).
Proof.
  intros trajectories num_steps. split; [apply replayed_spec|].
  intros H. rewrite replayed_spec. f_equal. apply firstn_all2.
  unfold Py.len in H. lia.
Qed.

Lemma recorder_replays_a_prefix_witness :
  let trajectories := window_steps (Npz.rewards uneven) 1 3 in
  Recorder.replayed trajectories 5 = Ok (firstn (Z.to_nat 5) trajectories) /\
  (Py.len trajectories <= 5 -> Recorder.replayed trajectories 5 = Ok trajectories).
Proof. apply (recorder_replays_a_prefix (window_steps (Npz.rewards uneven) 1 3) 5). Defined.

(** X16.  The progression script records each segment with
    num_steps = episode_length, and the batch recorder with the segment's
    declared n_timesteps: on a well-formed archive with 0 <= L <= T and
    num_videos >= 2 either way replays every exported step of every
    segment. *)
Theorem progression_segments_are_replayed_in_full :
  forall (d : Npz.data) (num_videos L : Z),
    well_formed d -> 2 <= num_videos -> 0 <= L <= Npz.n_timesteps d ->
    exists segs,
      Videos.create_progression_videos d num_videos L = Videos.Done segs /\
      Forall (fun g =>
                Recorder.replayed (Videos.trajectories g) L =
                  Ok (Videos.trajectories g) /\
                Recorder.replayed (Videos.trajectories g) (Videos.n_timesteps g) =
                  Ok (Videos.trajectories g)) segs.
Proof.
  intros d k L Hwf Hk HL.
  destruct (segments_spec d L (evenly_spaced (Npz.n_timesteps d) k L))
    as (segs & Hm & _ & Hall); [lia | |].
  - intros s Hs. apply evenly_spaced_bounds in Hs; [|lia|lia].
    rewrite <- Hwf. lia.
  - exists segs. split.
    + unfold Videos.create_progression_videos.
      rewrite sample_starts_spec by lia. now rewrite Hm.
    + eapply Forall_impl; [|exact Hall].
      intros g (_ & _ & _ & Hn & Hlen & _).
      rewrite Hn in *. rewrite replayed_spec.
      split; f_equal; apply firstn_all2; unfold Py.len in Hlen; lia.
Qed.

Lemma progression_segments_are_replayed_in_full_witness :
  exists segs,
    Videos.create_progression_videos uneven 3 2 = Videos.Done segs /\
    Forall (fun g =>
              Recorder.replayed (Videos.trajectories g) 2 =
                Ok (Videos.trajectories g) /\
              Recorder.replayed (Videos.trajectories g) (Videos.n_timesteps g) =
                Ok (Videos.trajectories g)) segs.
Proof.
  apply (progression_segments_are_replayed_in_full uneven 3 2).
  - reflexivity.
  - lia.
  - simpl. lia.
Defined.
